(** * InstantMeet signaling relay: room registry and message router

    A shallow embedding of the two router implementations of the
    repository and the properties of the routing engine:

    - [Part000] embeds [src/unnamed/part_000]: a room's membership is a
      set of sessions ([map[*Client]bool]) and every session owns an
      outbound queue ([Send chan Message]);
    - [MainGo] embeds [src/main.go]: a room's membership is a map from
      session id to session ([map[string]*Client]) and envelopes are
      written straight to the session's connection.

    Sessions are heap objects ([*Client]); they are modelled by their
    address in a store.  The router runs inside the read loop of one
    connection at a time, so every handler is a function from store to
    store.  Locks, the bound of the queue and the JSON codec belong to
    the transport and are not part of the model: [c.Send <- m] is an
    enqueue at the back of [c]'s queue, and [Conn.WriteMessage] appends
    a frame to the connection.  The writer goroutine of part_000,
    [writePump], does not run concurrently with the handlers in the
    model: it is embedded on its own, as a function of the envelopes it
    receives from the queue, over an abstract encoder and connection. *)

From stdpp Require Import base gmap strings list fin_maps fin_sets.
From Stdlib Require Import Strings.Byte.

Open Scope string_scope.
Open Scope list_scope.

(** ** Shared data model *)

(** Address of a [Client] object. *)
Abbreviation addr := nat (only parsing).

(** [type Message struct].  [Data] is a [json.RawMessage], a byte slice. *)
Record Message := mkMessage {
  msg_Type : string;
  msg_From : string;
  msg_To : string;
  msg_RoomID : string;
  msg_Username : string;
  msg_Data : list byte
}.

(** [msg.From = id] on the handler's own copy of the envelope. *)
Definition with_From (id : string) (msg : Message) : Message :=
  mkMessage (msg_Type msg) id (msg_To msg) (msg_RoomID msg)
            (msg_Username msg) (msg_Data msg).

(** [Message{Type: "joined", RoomID: roomID}] *)
Definition joined_msg (roomID : string) : Message :=
  mkMessage "joined" "" "" roomID "" [].

(** [Message{Type: "user-joined", From: id, Username: username, RoomID: roomID}] *)
Definition user_joined_msg (id username roomID : string) : Message :=
  mkMessage "user-joined" id "" roomID username [].

(** [Message{Type: "user-left", From: id, RoomID: roomID}] *)
Definition user_left_msg (id roomID : string) : Message :=
  mkMessage "user-left" id "" roomID "" [].


(** Go leaves the order in which [range] visits a map unspecified.  The
    handlers are parametrised by an enumeration of each kind of map;
    all that is known of it is that it lists every entry once. *)
Class GoRange := {
  range_set : gset addr → list addr;
  range_set_perm : ∀ s, range_set s ≡ₚ elements s;
  range_map : gmap string addr → list (string * addr);
  range_map_perm : ∀ m, range_map m ≡ₚ map_to_list m
}.

(** The enumeration used to run the handlers on concrete stores. *)
#[export] Program Instance canonical_range : GoRange | 100 :=
  {| range_set := elements; range_map := map_to_list |}.
Next Obligation. reflexivity. Qed.
Next Obligation. reflexivity. Qed.

(** ** [src/unnamed/part_000]: set membership, queued delivery *)
Module Part000.

(** [type Client struct]; [Send] holds the envelopes enqueued so far,
    oldest first. *)
Record Client := mkClient {
  ID : string;
  RoomID : string;
  Username : string;
  Send : list Message
}.

(** [type Room struct] *)
Record Room := mkRoom {
  Room_ID : string;
  Clients : gset addr
}.

(** The heap of sessions and the global [rooms] registry. *)
Record State := mkState {
  heap : gmap addr Client;
  rooms : gmap string Room
}.

(** [&Client{Conn: conn, Send: make(chan Message, 256)}] *)
Definition newClient : Client := mkClient "" "" "" [].

(** Process start: no session has sent anything, [rooms] is empty. *)
Definition initial : State := mkState ∅ ∅.

(** Dereference; an address never written holds a session as accepted. *)
Definition client_at (σ : State) (c : addr) : Client :=
  default newClient (heap σ !! c).

Definition store (c : addr) (v : Client) (σ : State) : State :=
  mkState (<[c := v]> (heap σ)) (rooms σ).

Definition set_rooms (r : gmap string Room) (σ : State) : State :=
  mkState (heap σ) r.

(** [client.ID = id] *)
Definition set_ID (c : addr) (id : string) (σ : State) : State :=
  let x := client_at σ c in
  store c (mkClient id (RoomID x) (Username x) (Send x)) σ.

(** [client.Username = u] *)
Definition set_Username (c : addr) (u : string) (σ : State) : State :=
  let x := client_at σ c in
  store c (mkClient (ID x) (RoomID x) u (Send x)) σ.

(** [client.RoomID = r] *)
Definition set_RoomID (c : addr) (r : string) (σ : State) : State :=
  let x := client_at σ c in
  store c (mkClient (ID x) r (Username x) (Send x)) σ.

(** [c.Send <- m] *)
Definition enqueue (c : addr) (m : Message) (σ : State) : State :=
  let x := client_at σ c in
  store c (mkClient (ID x) (RoomID x) (Username x) (Send x ++ [m])) σ.

Section Handlers.
Context {R : GoRange}.

(** Body of the notification loop of [handleJoin]. *)
Definition handleJoin_notify (client : addr) (roomID : string)
    (σ : State) (otherClient : addr) : State :=
  if decide (otherClient = client) then σ
  else enqueue otherClient
         (user_joined_msg (ID (client_at σ client))
                          (Username (client_at σ client)) roomID) σ.

(** [func handleJoin(client *Client, msg Message)] *)
Definition handleJoin (client : addr) (msg : Message) (σ : State) : State :=
  let σ := set_ID client (msg_From msg) σ in
  let σ := set_Username client (msg_Username msg) σ in
  if decide (msg_RoomID msg = "") then σ
  else
    let σ := set_RoomID client (msg_RoomID msg) σ in
    let room :=
      match rooms σ !! msg_RoomID msg with
      | Some room => room
      | None => mkRoom (msg_RoomID msg) ∅
      end in
    let room := mkRoom (Room_ID room) ({[client]} ∪ Clients room) in
    let σ := set_rooms (<[msg_RoomID msg := room]> (rooms σ)) σ in
    let σ := foldl (handleJoin_notify client (msg_RoomID msg)) σ
                   (range_set (Clients room)) in
    enqueue client (joined_msg (RoomID (client_at σ client))) σ.

(** The lookup loop of [handleSignaling]: the first session visited
    whose [ID] is [to]. *)
Definition findTarget (σ : State) (room : Room) (to : string) : option addr :=
  snd <$> list_find (λ c, ID (client_at σ c) = to) (range_set (Clients room)).

(** [func handleSignaling(client *Client, msg Message)] *)
Definition handleSignaling (client : addr) (msg : Message) (σ : State) : State :=
  if decide (msg_To msg = "") then σ
  else
    match rooms σ !! RoomID (client_at σ client) with
    | None => σ
    | Some room =>
        match findTarget σ room (msg_To msg) with
        | None => σ
        | Some targetClient =>
            enqueue targetClient (with_From (ID (client_at σ client)) msg) σ
        end
    end.

(** Body of the notification loop of [removeClientFromRoom]. *)
Definition removeClientFromRoom_notify (client : addr)
    (σ : State) (otherClient : addr) : State :=
  enqueue otherClient
    (user_left_msg (ID (client_at σ client)) (RoomID (client_at σ client))) σ.

(** [func removeClientFromRoom(client *Client)] *)
Definition removeClientFromRoom (client : addr) (σ : State) : State :=
  if decide (RoomID (client_at σ client) = "") then σ
  else
    match rooms σ !! RoomID (client_at σ client) with
    | None => σ
    | Some room =>
        let room := mkRoom (Room_ID room) (Clients room ∖ {[client]}) in
        let σ := set_rooms (<[RoomID (client_at σ client) := room]> (rooms σ)) σ in
        let clientCount := size (Clients room) in
        let σ := foldl (removeClientFromRoom_notify client) σ
                       (range_set (Clients room)) in
        if decide (clientCount = 0)
        then set_rooms (delete (RoomID (client_at σ client)) (rooms σ)) σ
        else σ
    end.

(** [func handleLeave(client *Client, msg Message)] *)
Definition handleLeave (client : addr) (msg : Message) (σ : State) : State :=
  removeClientFromRoom client σ.

(** The [switch msg.Type] of the read loop of [handleWebSocket]. *)
Definition handleWebSocket_dispatch (client : addr) (msg : Message)
    (σ : State) : State :=
  if decide (msg_Type msg = "join") then handleJoin client msg σ
  else if decide (msg_Type msg = "offer") then handleSignaling client msg σ
  else if decide (msg_Type msg = "answer") then handleSignaling client msg σ
  else if decide (msg_Type msg = "ice-candidate") then handleSignaling client msg σ
  else if decide (msg_Type msg = "leave") then handleLeave client msg σ
  else σ.

(** The read-error branch of the read loop of [handleWebSocket]: the
    room cleanup that runs before queue and connection are closed. *)
Definition handleWebSocket_readError (client : addr) (σ : State) : State :=
  if decide (RoomID (client_at σ client) ≠ "")
  then removeClientFromRoom client σ
  else σ.

(** [func handleWebSocket]: the life of the connection of [client],
    given the frames its read loop receives before the read fails; a
    frame that [json.Unmarshal] rejects is [None] and is skipped. *)
Definition handleWebSocket (client : addr) (frames : list (option Message))
    (σ : State) : State :=
  let σ := foldl (λ σ frame,
                    match frame with
                    | None => σ
                    | Some msg => handleWebSocket_dispatch client msg σ
                    end) σ frames in
  handleWebSocket_readError client σ.

End Handlers.

(** *** The writer goroutine *)
Section Pump.

(** [json.Marshal] and the connection are library code: the encoder may
    fail, and [Conn.WriteMessage] yields the next state of the
    connection and whether the write succeeded. *)
Context {frame conn : Type}.
Variable Marshal : Message → option frame.
Variable WriteMessage : conn → frame → conn * bool.
Variable Close : conn → conn.

(** The loop of [writePump] over the envelopes it receives from
    [c.Send], oldest first. *)
Fixpoint writePump_loop (received : list Message) (c : conn) : conn :=
  match received with
  | [] => c
  | message :: rest =>
      match Marshal message with
      | None => writePump_loop rest c
      | Some data =>
          let '(c, ok) := WriteMessage c data in
          if (ok : bool) then writePump_loop rest c else c
      end
  end.

(** [func (c *Client) writePump()] *)
Definition writePump (received : list Message) (c : conn) : conn :=
  Close (writePump_loop received c).

End Pump.

(** *** Observations *)

(** [c] is in the membership set of the room registered under [r]. *)
Definition member (σ : State) (r : string) (c : addr) : Prop :=
  ∃ room, rooms σ !! r = Some room ∧ c ∈ Clients room.

(** Every room of the registry has a member. *)
Definition rooms_nonempty (σ : State) : Prop :=
  ∀ r room, rooms σ !! r = Some room → Clients room ≠ ∅.

(** [σ'] differs from [σ] in the contents of queues only. *)
Definition only_queues (σ σ' : State) : Prop :=
  rooms σ' = rooms σ ∧
  ∀ c, ID (client_at σ' c) = ID (client_at σ c) ∧
       RoomID (client_at σ' c) = RoomID (client_at σ c) ∧
       Username (client_at σ' c) = Username (client_at σ c).

(** The room object a join of [r] adds its session to: the registered
    one, or the one it constructs. *)
Definition entered (σ : State) (r : string) : Room :=
  default (mkRoom r ∅) (rooms σ !! r).

(** The stores the router can be in: any interleaving of envelopes and
    read errors of any sessions, under any iteration order. *)
Inductive reachable : State → Prop :=
  | reach_initial : reachable initial
  | reach_dispatch (R : GoRange) client msg σ :
      reachable σ → reachable (handleWebSocket_dispatch client msg σ)
  | reach_readError (R : GoRange) client σ :
      reachable σ → reachable (handleWebSocket_readError client σ).

End Part000.

(** ** [src/main.go]: id-keyed membership, direct writes *)
Module MainGo.

(** [type Client struct]; [Conn] holds the frames written to the
    connection so far, oldest first. *)
Record Client := mkClient {
  ID : string;
  Conn : list Message;
  RoomID : string;
  Username : string
}.

(** [type Room struct] *)
Record Room := mkRoom {
  Room_ID : string;
  Clients : gmap string addr
}.

(** The heap of sessions and the global [rooms] registry. *)
Record State := mkState {
  heap : gmap addr Client;
  rooms : gmap string Room
}.

(** [&Client{Conn: conn}] *)
Definition newClient : Client := mkClient "" [] "" "".

(** Process start: no session has sent anything, [rooms] is empty. *)
Definition initial : State := mkState ∅ ∅.

(** Dereference; an address never written holds a session as accepted. *)
Definition client_at (σ : State) (c : addr) : Client :=
  default newClient (heap σ !! c).

Definition store (c : addr) (v : Client) (σ : State) : State :=
  mkState (<[c := v]> (heap σ)) (rooms σ).

Definition set_rooms (r : gmap string Room) (σ : State) : State :=
  mkState (heap σ) r.

(** [client.ID = id] *)
Definition set_ID (c : addr) (id : string) (σ : State) : State :=
  let x := client_at σ c in
  store c (mkClient id (Conn x) (RoomID x) (Username x)) σ.

(** [client.RoomID = r] *)
Definition set_RoomID (c : addr) (r : string) (σ : State) : State :=
  let x := client_at σ c in
  store c (mkClient (ID x) (Conn x) r (Username x)) σ.

(** [client.Username = u] *)
Definition set_Username (c : addr) (u : string) (σ : State) : State :=
  let x := client_at σ c in
  store c (mkClient (ID x) (Conn x) (RoomID x) u) σ.

(** [func sendMessage(client *Client, msg Message)] *)
Definition sendMessage (c : addr) (m : Message) (σ : State) : State :=
  let x := client_at σ c in
  store c (mkClient (ID x) (Conn x ++ [m]) (RoomID x) (Username x)) σ.

(** [func getOrCreateRoom(roomID string) *Room]: the room returned is
    the object stored under [roomID] in the registry that is returned. *)
Definition getOrCreateRoom (roomID : string) (σ : State) : Room * State :=
  match rooms σ !! roomID with
  | Some room => (room, σ)
  | None =>
      let room := mkRoom roomID ∅ in
      (room, set_rooms (<[roomID := room]> (rooms σ)) σ)
  end.

Section Handlers.
Context {R : GoRange}.

(** Body of the loop of [notifyOthersInRoom]. *)
Definition notifyOthersInRoom_body (sender : addr) (msg : Message)
    (σ : State) (entry : string * addr) : State :=
  if decide (entry.1 = ID (client_at σ sender)) then σ
  else sendMessage entry.2 msg σ.

(** [func notifyOthersInRoom(sender *Client, msg Message)] *)
Definition notifyOthersInRoom (sender : addr) (msg : Message)
    (σ : State) : State :=
  match rooms σ !! RoomID (client_at σ sender) with
  | None => σ
  | Some room =>
      foldl (notifyOthersInRoom_body sender msg) σ (range_map (Clients room))
  end.

(** [func handleJoin(client *Client, msg Message)] *)
Definition handleJoin (client : addr) (msg : Message) (σ : State) : State :=
  let σ := set_ID client (msg_From msg) σ in
  let σ := set_RoomID client (msg_RoomID msg) σ in
  let σ := set_Username client (msg_Username msg) σ in
  let '(room, σ) := getOrCreateRoom (msg_RoomID msg) σ in
  let room := mkRoom (Room_ID room)
                     (<[ID (client_at σ client) := client]> (Clients room)) in
  let σ := set_rooms (<[msg_RoomID msg := room]> (rooms σ)) σ in
  let σ := sendMessage client (joined_msg (RoomID (client_at σ client))) σ in
  notifyOthersInRoom client
    (user_joined_msg (ID (client_at σ client)) (Username (client_at σ client))
                     (RoomID (client_at σ client))) σ.

(** [func handleSignaling(client *Client, msg Message)] *)
Definition handleSignaling (client : addr) (msg : Message) (σ : State) : State :=
  if decide (msg_To msg = "") then σ
  else
    match rooms σ !! RoomID (client_at σ client) with
    | None => σ
    | Some room =>
        match Clients room !! msg_To msg with
        | None => σ
        | Some targetClient =>
            sendMessage targetClient (with_From (ID (client_at σ client)) msg) σ
        end
    end.

(** [func removeClientFromRoom(client *Client)] *)
Definition removeClientFromRoom (client : addr) (σ : State) : State :=
  if decide (RoomID (client_at σ client) = "") then σ
  else
    match rooms σ !! RoomID (client_at σ client) with
    | None => σ
    | Some room =>
        let room := mkRoom (Room_ID room)
                           (delete (ID (client_at σ client)) (Clients room)) in
        let σ := set_rooms (<[RoomID (client_at σ client) := room]> (rooms σ)) σ in
        let clientCount := size (Clients room) in
        let σ := notifyOthersInRoom client
                   (user_left_msg (ID (client_at σ client))
                                  (RoomID (client_at σ client))) σ in
        if decide (clientCount = 0)
        then set_rooms (delete (RoomID (client_at σ client)) (rooms σ)) σ
        else σ
    end.

(** [func handleLeave(client *Client, msg Message)] *)
Definition handleLeave (client : addr) (msg : Message) (σ : State) : State :=
  removeClientFromRoom client σ.

(** The [switch msg.Type] of the read loop of [handleWebSocket]. *)
Definition handleWebSocket_dispatch (client : addr) (msg : Message)
    (σ : State) : State :=
  if decide (msg_Type msg = "join") then handleJoin client msg σ
  else if decide (msg_Type msg = "offer") then handleSignaling client msg σ
  else if decide (msg_Type msg = "answer") then handleSignaling client msg σ
  else if decide (msg_Type msg = "ice-candidate") then handleSignaling client msg σ
  else if decide (msg_Type msg = "leave") then handleLeave client msg σ
  else σ.

(** The read-error branch of the read loop of [handleWebSocket]. *)
Definition handleWebSocket_readError (client : addr) (σ : State) : State :=
  if decide (RoomID (client_at σ client) ≠ "")
  then removeClientFromRoom client σ
  else σ.

(** [func handleWebSocket]: the life of the connection of [client],
    given the frames its read loop receives before the read fails; a
    frame that [json.Unmarshal] rejects is [None] and is skipped. *)
Definition handleWebSocket (client : addr) (frames : list (option Message))
    (σ : State) : State :=
  let σ := foldl (λ σ frame,
                    match frame with
                    | None => σ
                    | Some msg => handleWebSocket_dispatch client msg σ
                    end) σ frames in
  handleWebSocket_readError client σ.

End Handlers.

(** *** Observations *)

(** [c] is stored in the membership map of the room registered under [r]. *)
Definition member (σ : State) (r : string) (c : addr) : Prop :=
  ∃ room k, rooms σ !! r = Some room ∧ Clients room !! k = Some c.

(** Every room of the registry has a member. *)
Definition rooms_nonempty (σ : State) : Prop :=
  ∀ r room, rooms σ !! r = Some room → Clients room ≠ ∅.

(** [σ'] differs from [σ] in the frames written to connections only. *)
Definition only_conns (σ σ' : State) : Prop :=
  rooms σ' = rooms σ ∧
  ∀ c, ID (client_at σ' c) = ID (client_at σ c) ∧
       RoomID (client_at σ' c) = RoomID (client_at σ c) ∧
       Username (client_at σ' c) = Username (client_at σ c).

(** Number of entries of [l] that hold session [c] under a key other
    than [id]: the entries for which the loop of [notifyOthersInRoom]
    writes to [c] when the sender's id is [id]. *)
Definition copies_in (l : list (string * addr)) (id : string) (c : addr) : nat :=
  length (filter (λ e, e.1 ≠ id ∧ e.2 = c) l).

Definition copies (m : gmap string addr) (id : string) (c : addr) : nat :=
  copies_in (map_to_list m) id c.

(** The room object a join of [r] adds its session to: the registered
    one, or the one [getOrCreateRoom] constructs. *)
Definition entered (σ : State) (r : string) : Room :=
  default (mkRoom r ∅) (rooms σ !! r).

(** The stores the router can be in: any interleaving of envelopes and
    read errors of any sessions, under any iteration order. *)
Inductive reachable : State → Prop :=
  | reach_initial : reachable initial
  | reach_dispatch (R : GoRange) client msg σ :
      reachable σ → reachable (handleWebSocket_dispatch client msg σ)
  | reach_readError (R : GoRange) client σ :
      reachable σ → reachable (handleWebSocket_readError client σ).

End MainGo.

(** ** Concrete runs *)
Module Scenarios.

Definition join_msg (from roomID username : string) : Message :=
  mkMessage "join" from "" roomID username [].

Definition leave_msg : Message := mkMessage "leave" "" "" "" "" [].

(** An offer addressed to [to]; the sender filled in a [from] of its own. *)
Definition offer_msg (to : string) : Message :=
  mkMessage "offer" "mallory" to "" "" (String.list_byte_of_string "sdp1").

(** Run a list of (session, envelope) pairs through the read loops. *)
Definition p_run (l : list (addr * Message)) : Part000.State :=
  foldl (λ σ e, Part000.handleWebSocket_dispatch e.1 e.2 σ) Part000.initial l.

Definition m_run (l : list (addr * Message)) : MainGo.State :=
  foldl (λ σ e, MainGo.handleWebSocket_dispatch e.1 e.2 σ) MainGo.initial l.

(** Session 1 ("a") is the only member of room R. *)
Definition alone_in_R : list (addr * Message) :=
  [(1, join_msg "a" "R" "alice")].

(** Sessions 1 ("a") and 2 ("b") in room R. *)
Definition two_in_R : list (addr * Message) :=
  [(1, join_msg "a" "R" "alice"); (2, join_msg "b" "R" "bob")].




(** Session 1 joined room R as "a" and then again as "b". *)
Definition rejoined_renamed : list (addr * Message) :=
  [(1, join_msg "a" "R" "alice"); (1, join_msg "b" "R" "alice")].

(** Sessions 1 and 2 both joined room R as "a". *)
Definition same_id_twice : list (addr * Message) :=
  [(1, join_msg "a" "R" "alice"); (2, join_msg "a" "R" "bob")].

(** Session 1 joined the room with the empty id as "a". *)
Definition alone_in_unnamed_room : list (addr * Message) :=
  [(1, join_msg "a" "" "alice")].

(** Session 1 joined room R as "x" and then again as "a": it is stored
    under both keys and its id is "a". *)
Definition stale_entry : list (addr * Message) :=
  [(1, join_msg "x" "R" "alice"); (1, join_msg "a" "R" "alice")].

(** Sessions 1 ("a") and 2 ("b") in room R, session 3 ("c") in room S. *)
Definition two_rooms : list (addr * Message) :=
  two_in_R ++ [(3, join_msg "c" "S" "carol")].

(** Session 1 joined room R and then room S; session 2 is in R. *)
Definition moved_on : list (addr * Message) :=
  two_in_R ++ [(1, join_msg "a" "S" "alice")].

End Scenarios.

(** * Properties of the part_000 handlers *)
Module Part000Facts.
Import Part000.

Lemma client_at_store c v σ c' :
  client_at (store c v σ) c' = if decide (c' = c) then v else client_at σ c'.
Proof.
  unfold client_at, store; simpl. case_decide as E.
  - subst c'. by rewrite lookup_insert_eq.
  - by rewrite lookup_insert_ne.
Qed.

Lemma only_queues_refl σ : only_queues σ σ.
Proof. by split. Qed.

Lemma only_queues_trans σ1 σ2 σ3 :
  only_queues σ1 σ2 → only_queues σ2 σ3 → only_queues σ1 σ3.
Proof.
  intros [E1 H1] [E2 H2]. split; [congruence|].
  intros c. destruct (H1 c) as (?&?&?), (H2 c) as (?&?&?).
  repeat split; congruence.
Qed.

Lemma enqueue_only_queues c m σ : only_queues σ (enqueue c m σ).
Proof.
  split; [done|]. intros c'. unfold enqueue.
  rewrite client_at_store. case_decide; subst; done.
Qed.

Lemma enqueue_Send c m σ c' :
  Send (client_at (enqueue c m σ) c') =
  Send (client_at σ c') ++ (if decide (c' = c) then [m] else []).
Proof.
  unfold enqueue. rewrite client_at_store.
  case_decide; subst; simpl; [done|by rewrite app_nil_r].
Qed.

Section Loops.
Context (sel : addr → Prop) `{!∀ x, Decision (sel x)}.
Context (mk : State → Message) (f : State → addr → State).
Hypothesis f_body : ∀ σ x, f σ x = if decide (sel x) then enqueue x (mk σ) σ else σ.
Hypothesis mk_stable : ∀ σ σ', only_queues σ σ' → mk σ' = mk σ.

Lemma foldl_enqueue l : ∀ σ, NoDup l →
  only_queues σ (foldl f σ l) ∧
  ∀ c, Send (client_at (foldl f σ l) c) =
       Send (client_at σ c) ++ (if decide (c ∈ l ∧ sel c) then [mk σ] else []).
Proof.
  induction l as [|x l IH]; intros σ ND; cbn [foldl].
  - split; [apply only_queues_refl|]. intros c.
    rewrite decide_False; [by rewrite app_nil_r|]. intros [[]%not_elem_of_nil _].
  - apply NoDup_cons in ND as [Hx ND].
    assert (Hstep : only_queues σ (f σ x)).
    { rewrite f_body. case_decide; [apply enqueue_only_queues|apply only_queues_refl]. }
    destruct (IH (f σ x) ND) as [Hq Hs]. split.
    + eapply only_queues_trans; eauto.
    + intros c. rewrite Hs, (mk_stable _ _ Hstep), f_body.
      assert (Hc : c ∈ x :: l ∧ sel c ↔ (c = x ∧ sel x) ∨ (c ∈ l ∧ sel c)).
      { rewrite elem_of_cons. split.
        - intros [[->|?] ?]; [left|right]; done.
        - intros [[-> ?]|[? ?]]; split; auto. }
      destruct (decide (sel x)) as [Hsel|Hsel].
      * rewrite enqueue_Send.
        destruct (decide (c = x)) as [->|Hne].
        -- rewrite (decide_False (P := x ∈ l ∧ _)) by tauto.
           rewrite (decide_True (P := x ∈ x :: l ∧ _)) by tauto.
           by rewrite app_nil_r.
        -- rewrite app_nil_r. f_equal.
           destruct (decide (c ∈ l ∧ sel c)), (decide (c ∈ x :: l ∧ sel c));
             try done; tauto.
      * f_equal.
        destruct (decide (c ∈ l ∧ sel c)), (decide (c ∈ x :: l ∧ sel c));
          try done; tauto.
Qed.
End Loops.

Section Handlers.
Context {R : GoRange}.

Lemma range_set_NoDup (s : gset addr) : NoDup (range_set s).
Proof. rewrite range_set_perm. apply NoDup_elements. Qed.

Lemma elem_of_range_set (s : gset addr) x : x ∈ range_set s ↔ x ∈ s.
Proof. rewrite range_set_perm. apply elem_of_elements. Qed.

Lemma handleJoin_dropped client msg σ :
  msg_RoomID msg = "" →
  handleJoin client msg σ =
  set_Username client (msg_Username msg) (set_ID client (msg_From msg) σ).
Proof. intros E. unfold handleJoin. by rewrite decide_True. Qed.

Lemma handleJoin_spec client msg σ :
  msg_RoomID msg ≠ "" →
  let r := msg_RoomID msg in
  let σ' := handleJoin client msg σ in
  rooms σ' = <[r := mkRoom (Room_ID (entered σ r))
                           ({[client]} ∪ Clients (entered σ r))]> (rooms σ) ∧
  (∀ c, ID (client_at σ' c) =
          (if decide (c = client) then msg_From msg else ID (client_at σ c)) ∧
        RoomID (client_at σ' c) =
          (if decide (c = client) then r else RoomID (client_at σ c)) ∧
        Username (client_at σ' c) =
          (if decide (c = client) then msg_Username msg
           else Username (client_at σ c))) ∧
  (∀ c, Send (client_at σ' c) =
        Send (client_at σ c) ++
        (if decide (c = client) then [joined_msg r]
         else if decide (c ∈ Clients (entered σ r))
              then [user_joined_msg (msg_From msg) (msg_Username msg) r]
              else [])).
Proof.
  intros Hr r σ'. subst σ'. unfold handleJoin. rewrite decide_False by done.
  fold r.
  set (σ3 := set_RoomID client r _).
  assert (Hrooms3 : rooms σ3 = rooms σ) by done.
  assert (H3 : ∀ c, client_at σ3 c =
     if decide (c = client)
     then mkClient (msg_From msg) r (msg_Username msg) (Send (client_at σ client))
     else client_at σ c).
  { intros c. unfold σ3, set_RoomID, set_Username, set_ID.
    rewrite !client_at_store.
    rewrite !(decide_True (P := client = client)) by done. simpl.
    by destruct (decide (c = client)). }
  rewrite Hrooms3. fold (entered σ r).
  set (room := mkRoom _ _).
  set (σ4 := set_rooms _ σ3).
  assert (H4 : ∀ c, client_at σ4 c = client_at σ3 c) by done.
  destruct (foldl_enqueue (λ x, x ≠ client)
              (λ s, user_joined_msg (ID (client_at s client))
                                    (Username (client_at s client)) r)
              (handleJoin_notify client r)) with (l := range_set (Clients room)) (σ := σ4)
    as [[Hr5 Hi5] Hs5].
  { intros s x. unfold handleJoin_notify.
    destruct (decide (x = client)), (decide (x ≠ client)); done. }
  { intros s s' [_ Hs]. destruct (Hs client) as (-> & _ & ->). done. }
  { apply range_set_NoDup. }
  set (σ5 := foldl _ _ _) in *.
  split; [|split].
  - simpl. by rewrite Hr5.
  - intros c. pose proof (enqueue_only_queues client
        (joined_msg (RoomID (client_at σ5 client))) σ5) as [_ Hi6].
    destruct (Hi6 c) as (-> & -> & ->). destruct (Hi5 c) as (-> & -> & ->).
    rewrite H4, H3. by destruct (decide (c = client)).
  - intros c. rewrite enqueue_Send, Hs5, H4, H3.
    destruct (Hi5 client) as (_ & -> & _). rewrite !H4, !H3.
    rewrite !(decide_True (P := client = client)) by done. simpl.
    destruct (decide (c = client)) as [->|Hne].
    + rewrite decide_False by tauto. by rewrite app_nil_r.
    + rewrite app_nil_r. f_equal.
      destruct (decide (c ∈ Clients (entered σ r))) as [Hin|Hin].
      * rewrite decide_True; [done|]. split; [|done].
        apply elem_of_range_set. subst room; simpl.
        apply elem_of_union. by right.
      * rewrite decide_False; [done|]. intros [Hin' _]. apply Hin.
        apply elem_of_range_set in Hin'. subst room; simpl in Hin'.
        apply elem_of_union in Hin' as [Hin'%elem_of_singleton|]; done.
Qed.


Lemma findTarget_Some σ room to t :
  findTarget σ room to = Some t → t ∈ Clients room ∧ ID (client_at σ t) = to.
Proof.
  unfold findTarget. destruct (list_find _ _) as [[i x]|] eqn:E; [|done].
  intros [= <-]. apply list_find_Some in E as (Hl & HP & _). split; [|done].
  apply elem_of_range_set. by eapply list_elem_of_lookup_2.
Qed.

Lemma findTarget_None σ room to :
  findTarget σ room to = None ↔ ∀ c, c ∈ Clients room → ID (client_at σ c) ≠ to.
Proof.
  unfold findTarget. destruct (list_find _ _) as [[i x]|] eqn:E; simpl.
  - split; [done|]. intros H. apply list_find_Some in E as (Hl & HP & _).
    exfalso. apply (H x); [|done].
    apply elem_of_range_set. by eapply list_elem_of_lookup_2.
  - split; [|done]. intros _ c Hc. apply list_find_None in E.
    rewrite Forall_forall in E. apply E. by apply elem_of_range_set.
Qed.


Lemma removeClientFromRoom_spec client σ room :
  let r := RoomID (client_at σ client) in
  r ≠ "" → rooms σ !! r = Some room →
  let σ' := removeClientFromRoom client σ in
  rooms σ' =
    (if decide (Clients room ∖ {[client]} = ∅) then delete r (rooms σ)
     else <[r := mkRoom (Room_ID room) (Clients room ∖ {[client]})]> (rooms σ)) ∧
  (∀ c, ID (client_at σ' c) = ID (client_at σ c) ∧
        RoomID (client_at σ' c) = RoomID (client_at σ c) ∧
        Username (client_at σ' c) = Username (client_at σ c)) ∧
  (∀ c, Send (client_at σ' c) =
        Send (client_at σ c) ++
        (if decide (c ∈ Clients room ∧ c ≠ client)
         then [user_left_msg (ID (client_at σ client)) r] else [])).
Proof.
  intros r Hr Hroom σ'. subst σ'. unfold removeClientFromRoom. fold r.
  rewrite decide_False by done. rewrite Hroom.
  set (room' := mkRoom _ _).
  set (σ1 := set_rooms _ σ).
  assert (H1 : ∀ c, client_at σ1 c = client_at σ c) by done.
  destruct (foldl_enqueue (λ _, True)
              (λ s, user_left_msg (ID (client_at s client))
                                  (RoomID (client_at s client)))
              (removeClientFromRoom_notify client))
    with (l := range_set (Clients room')) (σ := σ1) as [[Hr2 Hi2] Hs2].
  { intros s x. by rewrite decide_True. }
  { intros s s' [_ Hs]. destruct (Hs client) as (-> & -> & _). done. }
  { apply range_set_NoDup. }
  set (σ2 := foldl _ _ _) in *.
  assert (Hmem : ∀ c, c ∈ range_set (Clients room') ∧ True
                      ↔ c ∈ Clients room ∧ c ≠ client).
  { intros c. rewrite elem_of_range_set. subst room'; simpl.
    rewrite elem_of_difference, not_elem_of_singleton. tauto. }
  assert (Hsend : ∀ c, Send (client_at σ2 c) =
        Send (client_at σ c) ++
        (if decide (c ∈ Clients room ∧ c ≠ client)
         then [user_left_msg (ID (client_at σ client)) r] else [])).
  { intros c. rewrite Hs2, !H1. fold r. f_equal.
    destruct (decide (c ∈ range_set (Clients room') ∧ True)) as [H|H],
             (decide (c ∈ Clients room ∧ c ≠ client)) as [H'|H'];
      try done; exfalso; apply Hmem in H || apply Hmem in H'; tauto. }
  assert (Hident : ∀ c, ID (client_at σ2 c) = ID (client_at σ c) ∧
        RoomID (client_at σ2 c) = RoomID (client_at σ c) ∧
        Username (client_at σ2 c) = Username (client_at σ c)).
  { intros c. destruct (Hi2 c) as (-> & -> & ->). by rewrite H1. }
  destruct (Hident client) as (_ & -> & _). fold r.
  destruct (decide (size (Clients room') = 0)) as [Hz|Hnz].
  - apply size_empty_iff in Hz. apply leibniz_equiv in Hz.
    rewrite decide_True by done. split; [|by split].
    simpl. rewrite Hr2. simpl. by rewrite delete_insert_eq.
  - rewrite decide_False.
    + split; [|by split]. by rewrite Hr2.
    + intros Hz. apply Hnz. subst room'; simpl. rewrite Hz. apply size_empty.
Qed.

End Handlers.
End Part000Facts.

(** * Frames and invariants of the part_000 handlers *)
Module Part000Frames.
Import Part000 Part000Facts.




Lemma setters_only_fields client id u σ c :
  Send (client_at (set_Username client u (set_ID client id σ)) c) =
  Send (client_at σ c) ∧
  RoomID (client_at (set_Username client u (set_ID client id σ)) c) =
  RoomID (client_at σ c).
Proof.
  unfold set_Username, set_ID. rewrite !client_at_store.
  rewrite !(decide_True (P := client = client)) by done.
  by destruct (decide (c = client)) as [->|].
Qed.

Section Handlers.
Context {R : GoRange}.

Lemma handleSignaling_only_queues client msg σ :
  only_queues σ (handleSignaling client msg σ).
Proof.
  unfold handleSignaling.
  destruct (decide _); [apply only_queues_refl|].
  destruct (_ !! _); [|apply only_queues_refl].
  destruct (findTarget _ _ _);
    [apply enqueue_only_queues|apply only_queues_refl].
Qed.


Lemma handleSignaling_noop client msg σ :
  msg_To msg = "" ∨
  rooms σ !! RoomID (client_at σ client) = None ∨
  (∃ room, rooms σ !! RoomID (client_at σ client) = Some room ∧
           ∀ c, c ∈ Clients room → ID (client_at σ c) ≠ msg_To msg) →
  handleSignaling client msg σ = σ.
Proof.
  unfold handleSignaling. intros [Hto | [Hnone | (room & Hroom & Hno)]].
  - by rewrite decide_True.
  - destruct (decide _); [done|]. by rewrite Hnone.
  - destruct (decide _); [done|]. rewrite Hroom.
    apply findTarget_None in Hno. by rewrite Hno.
Qed.


Lemma handleSignaling_ignores_From client msg x σ :
  handleSignaling client (with_From x msg) σ = handleSignaling client msg σ.
Proof. done. Qed.


Lemma readError_removes client σ :
  handleWebSocket_readError client σ = removeClientFromRoom client σ.
Proof.
  unfold handleWebSocket_readError, removeClientFromRoom.
  destruct (decide (RoomID (client_at σ client) ≠ "")) as [H|H].
  - by rewrite decide_False.
  - rewrite decide_True; [done|]. by destruct (decide (RoomID (client_at σ client) = "")).
Qed.



Lemma handleJoin_nonempty client msg σ :
  rooms_nonempty σ → rooms_nonempty (handleJoin client msg σ).
Proof.
  intros Hinv. destruct (decide (msg_RoomID msg = "")) as [E|E].
  - by rewrite handleJoin_dropped.
  - destruct (handleJoin_spec client msg σ E) as (Hr & _).
    intros r room. rewrite Hr, lookup_insert.
    destruct (decide (msg_RoomID msg = r)).
    + intros [= <-]. simpl. intros Hempty.
      apply (not_elem_of_empty (C := gset addr) client).
      rewrite <- Hempty. apply elem_of_union. left. by apply elem_of_singleton.
    + apply Hinv.
Qed.

Lemma handleSignaling_nonempty client msg σ :
  rooms_nonempty σ → rooms_nonempty (handleSignaling client msg σ).
Proof.
  intros Hinv. destruct (handleSignaling_only_queues client msg σ) as [Hr _].
  intros r room. rewrite Hr. apply Hinv.
Qed.

Lemma removeClientFromRoom_nonempty client σ :
  rooms_nonempty σ → rooms_nonempty (removeClientFromRoom client σ).
Proof.
  intros Hinv.
  destruct (decide (RoomID (client_at σ client) = "")) as [E|E].
  { unfold removeClientFromRoom. by rewrite decide_True. }
  destruct (rooms σ !! RoomID (client_at σ client)) as [room|] eqn:Hroom.
  - destruct (removeClientFromRoom_spec client σ room E Hroom) as (Hr & _).
    intros r room'. rewrite Hr. destruct (decide (_ = ∅)) as [Hz|Hnz].
    + rewrite lookup_delete. destruct (decide _); [done|]. apply Hinv.
    + rewrite lookup_insert. destruct (decide _); [|apply Hinv].
      by intros [= <-].
  - unfold removeClientFromRoom. by rewrite decide_False, Hroom.
Qed.

Lemma dispatch_nonempty client msg σ :
  rooms_nonempty σ → rooms_nonempty (handleWebSocket_dispatch client msg σ).
Proof.
  intros Hinv. unfold handleWebSocket_dispatch, handleLeave.
  repeat destruct (decide _);
    auto using handleJoin_nonempty, handleSignaling_nonempty,
               removeClientFromRoom_nonempty.
Qed.



Lemma member_entered σ r c : member σ r c ↔ c ∈ Clients (entered σ r).
Proof.
  unfold member, entered. destruct (rooms σ !! r) as [room|]; simpl.
  - split; [by intros (? & [= <-] & ?)|eauto].
  - split; [by intros (? & [=] & _)|]. by intros ?%not_elem_of_empty.
Qed.

End Handlers.

Lemma reachable_nonempty σ : reachable σ → rooms_nonempty σ.
Proof.
  induction 1 as [|R client msg σ _ IH|R client σ _ IH].
  - intros r room. unfold initial; simpl. by rewrite lookup_empty.
  - by apply dispatch_nonempty.
  - rewrite readError_removes. by apply removeClientFromRoom_nonempty.
Qed.

Lemma reachable_foldl (l : list (addr * Message)) : ∀ σ,
  reachable σ →
  reachable (foldl (λ σ e, handleWebSocket_dispatch e.1 e.2 σ) σ l).
Proof.
  induction l as [|e l IH]; intros σ Hσ; cbn [foldl]; [done|].
  apply IH. by constructor.
Qed.

End Part000Frames.

(** * Properties of the main.go handlers *)
Module MainGoFacts.
Import MainGo.

Lemma mg_client_at_store c v σ c' :
  client_at (store c v σ) c' = if decide (c' = c) then v else client_at σ c'.
Proof.
  unfold client_at, store; simpl. destruct (decide (c' = c)) as [->|E].
  - by rewrite lookup_insert_eq.
  - by rewrite lookup_insert_ne.
Qed.

Lemma mg_only_conns_refl σ : only_conns σ σ.
Proof. by split. Qed.

Lemma mg_only_conns_trans σ1 σ2 σ3 :
  only_conns σ1 σ2 → only_conns σ2 σ3 → only_conns σ1 σ3.
Proof.
  intros [E1 H1] [E2 H2]. split; [congruence|].
  intros c. destruct (H1 c) as (?&?&?), (H2 c) as (?&?&?).
  repeat split; congruence.
Qed.

Lemma mg_sendMessage_only_conns c m σ : only_conns σ (sendMessage c m σ).
Proof.
  split; [done|]. intros c'. unfold sendMessage.
  rewrite mg_client_at_store. by destruct (decide (c' = c)) as [->|].
Qed.

Lemma mg_sendMessage_Conn c m σ c' :
  Conn (client_at (sendMessage c m σ) c') =
  Conn (client_at σ c') ++ (if decide (c' = c) then [m] else []).
Proof.
  unfold sendMessage. rewrite mg_client_at_store.
  destruct (decide (c' = c)) as [->|]; simpl; [done|by rewrite app_nil_r].
Qed.

Lemma mg_notify_loop sender msg l : ∀ σ,
  let σ' := foldl (notifyOthersInRoom_body sender msg) σ l in
  only_conns σ σ' ∧
  ∀ c, Conn (client_at σ' c) =
       Conn (client_at σ c) ++
       replicate (copies_in l (ID (client_at σ sender)) c) msg.
Proof.
  induction l as [|[k x] l IH]; intros σ; cbn [foldl].
  - split; [apply mg_only_conns_refl|]. intros c. by rewrite app_nil_r.
  - set (σ1 := notifyOthersInRoom_body sender msg σ (k, x)).
    assert (Hstep : only_conns σ σ1).
    { unfold σ1, notifyOthersInRoom_body.
      destruct (decide _); [apply mg_only_conns_refl|apply mg_sendMessage_only_conns]. }
    destruct (IH σ1) as [Hq Hs]. split.
    + eapply mg_only_conns_trans; eauto.
    + intros c. rewrite Hs. destruct Hstep as [_ Hid].
      destruct (Hid sender) as (-> & _ & _).
      unfold copies_in. rewrite filter_cons. unfold σ1, notifyOthersInRoom_body.
      cbn [fst snd].
      destruct (decide (k = ID (client_at σ sender))) as [Hk|Hk].
      * rewrite decide_False by tauto. done.
      * rewrite mg_sendMessage_Conn. destruct (decide (c = x)) as [->|Hc].
        -- rewrite decide_True by done. cbn [length replicate].
           by rewrite <- app_assoc.
        -- rewrite decide_False by (intros [_ ?]; congruence).
           by rewrite app_nil_r.
Qed.

Lemma mg_copies_in_perm l1 l2 id c : l1 ≡ₚ l2 → copies_in l1 id c = copies_in l2 id c.
Proof. intros H. unfold copies_in. by rewrite H. Qed.

Section Handlers.
Context {R : GoRange}.

Lemma mg_notifyOthersInRoom_spec sender msg σ room :
  rooms σ !! RoomID (client_at σ sender) = Some room →
  let σ' := notifyOthersInRoom sender msg σ in
  only_conns σ σ' ∧
  ∀ c, Conn (client_at σ' c) =
       Conn (client_at σ c) ++
       replicate (copies (Clients room) (ID (client_at σ sender)) c) msg.
Proof.
  intros Hroom σ'. subst σ'. unfold notifyOthersInRoom. rewrite Hroom.
  destruct (mg_notify_loop sender msg (range_map (Clients room)) σ) as [H1 H2].
  split; [done|]. intros c. rewrite H2. unfold copies.
  by rewrite (mg_copies_in_perm _ _ _ _ (range_map_perm _)).
Qed.

Lemma mg_handleJoin_spec client msg σ :
  let r := msg_RoomID msg in
  let σ' := handleJoin client msg σ in
  let members := <[msg_From msg := client]> (Clients (entered σ r)) in
  rooms σ' = <[r := mkRoom (Room_ID (entered σ r)) members]> (rooms σ) ∧
  (∀ c, ID (client_at σ' c) =
          (if decide (c = client) then msg_From msg else ID (client_at σ c)) ∧
        RoomID (client_at σ' c) =
          (if decide (c = client) then r else RoomID (client_at σ c)) ∧
        Username (client_at σ' c) =
          (if decide (c = client) then msg_Username msg
           else Username (client_at σ c))) ∧
  (∀ c, Conn (client_at σ' c) =
        Conn (client_at σ c) ++
        (if decide (c = client) then [joined_msg r] else []) ++
        replicate (copies members (msg_From msg) c)
                  (user_joined_msg (msg_From msg) (msg_Username msg) r)).
Proof.
  intros r σ' members. subst σ'. unfold handleJoin. fold r.
  set (σ3 := set_Username client _ _).
  assert (Hrooms3 : rooms σ3 = rooms σ) by done.
  assert (H3 : ∀ c, client_at σ3 c =
     if decide (c = client)
     then mkClient (msg_From msg) (Conn (client_at σ client)) r (msg_Username msg)
     else client_at σ c).
  { intros c. unfold σ3, set_RoomID, set_Username, set_ID.
    rewrite !mg_client_at_store.
    rewrite !(decide_True (P := client = client)) by done. simpl.
    by destruct (decide (c = client)). }
  assert (Hg : ∃ σg, getOrCreateRoom r σ3 = (entered σ r, σg) ∧
                     (∀ c, client_at σg c = client_at σ3 c) ∧
                     <[r := mkRoom (Room_ID (entered σ r)) members]> (rooms σg) =
                     <[r := mkRoom (Room_ID (entered σ r)) members]> (rooms σ)).
  { unfold getOrCreateRoom, entered. rewrite Hrooms3.
    destruct (rooms σ !! r) as [room|] eqn:E; simpl.
    - exists σ3. by rewrite Hrooms3.
    - eexists. split; [done|]. split; [done|]. simpl.
      by rewrite ?Hrooms3, insert_insert_eq. }
  destruct Hg as (σg & -> & Hcg & Hrg).
  rewrite Hcg, H3, decide_True by done. cbn [ID]. fold members. rewrite Hrg.
  set (room := mkRoom _ members).
  set (σ4 := set_rooms _ σg).
  assert (H4 : ∀ c, client_at σ4 c = client_at σ3 c) by (intros; apply Hcg).
  rewrite !H4, !H3, !decide_True by done. cbn [ID RoomID Username].
  set (σ5 := sendMessage client (joined_msg r) σ4).
  assert (Hsm : only_conns σ4 σ5) by apply mg_sendMessage_only_conns.
  destruct Hsm as [Hr5 Hi5].
  destruct (Hi5 client) as (E1 & E2 & E3). rewrite E1, E2, E3, !H4, !H3.
  rewrite !(decide_True (P := client = client)) by done.
  cbn [ID RoomID Username].
  destruct (mg_notifyOthersInRoom_spec client
              (user_joined_msg (msg_From msg) (msg_Username msg) r) σ5 room)
    as [[Hr6 Hi6] Hs6].
  { rewrite Hr5, E2, H4, H3, decide_True by done.
    simpl. by rewrite lookup_insert_eq. }
  split; [|split].
  - by rewrite Hr6, Hr5.
  - intros c. destruct (Hi6 c) as (-> & -> & ->).
    destruct (Hi5 c) as (-> & -> & ->). rewrite H4, H3.
    by destruct (decide (c = client)).
  - intros c. rewrite Hs6. unfold σ5 at 1. rewrite mg_sendMessage_Conn.
    rewrite E1, !H4, !H3.
    rewrite !(decide_True (P := client = client)) by done. cbn [ID Conn].
    rewrite <- app_assoc. by destruct (decide (c = client)) as [->|].
Qed.

Lemma mg_removeClientFromRoom_spec client σ room :
  let r := RoomID (client_at σ client) in
  let id := ID (client_at σ client) in
  r ≠ "" → rooms σ !! r = Some room →
  let σ' := removeClientFromRoom client σ in
  let members := delete id (Clients room) in
  rooms σ' =
    (if decide (members = ∅) then delete r (rooms σ)
     else <[r := mkRoom (Room_ID room) members]> (rooms σ)) ∧
  (∀ c, ID (client_at σ' c) = ID (client_at σ c) ∧
        RoomID (client_at σ' c) = RoomID (client_at σ c) ∧
        Username (client_at σ' c) = Username (client_at σ c)) ∧
  (∀ c, Conn (client_at σ' c) =
        Conn (client_at σ c) ++ replicate (copies members id c) (user_left_msg id r)).
Proof.
  intros r id Hr Hroom σ' members. subst σ'. unfold removeClientFromRoom.
  fold r id. rewrite decide_False by done. rewrite Hroom. fold members.
  set (room' := mkRoom _ members).
  set (σ1 := set_rooms _ σ).
  assert (H1 : ∀ c, client_at σ1 c = client_at σ c) by done.
  rewrite !H1. fold r id.
  destruct (mg_notifyOthersInRoom_spec client (user_left_msg id r) σ1 room')
    as [[Hr2 Hi2] Hs2].
  { rewrite H1. fold r. simpl. by rewrite lookup_insert_eq. }
  set (σ2 := notifyOthersInRoom _ _ _) in *.
  assert (Hident : ∀ c, ID (client_at σ2 c) = ID (client_at σ c) ∧
        RoomID (client_at σ2 c) = RoomID (client_at σ c) ∧
        Username (client_at σ2 c) = Username (client_at σ c)).
  { intros c. destruct (Hi2 c) as (-> & -> & ->). by rewrite H1. }
  assert (Hconn : ∀ c, Conn (client_at σ2 c) =
        Conn (client_at σ c) ++ replicate (copies members id c) (user_left_msg id r)).
  { intros c. rewrite Hs2, !H1. done. }
  destruct (Hident client) as (_ & -> & _). fold r.
  destruct (decide (size (Clients room') = 0)) as [Hz|Hnz].
  - apply map_size_empty_iff in Hz. rewrite decide_True by done.
    split; [|by split]. simpl. rewrite Hr2. simpl. by rewrite delete_insert_eq.
  - rewrite decide_False.
    + split; [|by split]. by rewrite Hr2.
    + intros Hz. apply Hnz. subst room'; simpl. rewrite Hz. apply map_size_empty.
Qed.

End Handlers.
End MainGoFacts.

(** * Frames and invariants of the main.go handlers *)
Module MainGoFrames.
Import MainGo MainGoFacts.




Lemma mg_copies_none (m : gmap string addr) id c :
  (∀ k, m !! k = Some c → k = id) → copies m id c = 0.
Proof.
  intros Honly. unfold copies, copies_in.
  destruct (filter _ _) as [|[k x] l] eqn:E; [done|]. exfalso.
  assert (Hin : (k, x) ∈ filter (λ e : string * addr, e.1 ≠ id ∧ e.2 = c)
                                (map_to_list m)).
  { rewrite E. apply elem_of_cons. by left. }
  apply list_elem_of_filter in Hin as [[Hk Hx] Hin]. simpl in Hk, Hx.
  apply elem_of_map_to_list in Hin. subst x. by apply Hk, Honly.
Qed.

Lemma mg_copies_one (m : gmap string addr) id c k :
  m !! k = Some c → k ≠ id → (∀ k', m !! k' = Some c → k' = k) →
  copies m id c = 1.
Proof.
  intros Hk Hne Honly. unfold copies, copies_in.
  set (P := λ e : string * addr, e.1 ≠ id ∧ e.2 = c).
  assert (ND : NoDup (filter P (map_to_list m)))
    by apply NoDup_filter, NoDup_map_to_list.
  assert (Hall : ∀ e, e ∈ filter P (map_to_list m) → e = (k, c)).
  { intros [k' x] [[_ Hx] Hin]%list_elem_of_filter. simpl in Hx. subst x.
    apply elem_of_map_to_list in Hin. by rewrite (Honly k' Hin). }
  assert (Hin : (k, c) ∈ filter P (map_to_list m)).
  { apply list_elem_of_filter. split; [done|]. by apply elem_of_map_to_list. }
  destruct (filter P (map_to_list m)) as [|e1 [|e2 l]].
  - by apply elem_of_nil in Hin.
  - done.
  - exfalso. apply NoDup_cons in ND as [Hnot _]. apply Hnot.
    rewrite (Hall e1), <- (Hall e2).
    + apply elem_of_cons. by left.
    + apply elem_of_cons. right. apply elem_of_cons. by left.
    + apply elem_of_cons. by left.
Qed.

Lemma mg_member_entered σ r c :
  member σ r c ↔ ∃ k, Clients (entered σ r) !! k = Some c.
Proof.
  unfold member, entered. destruct (rooms σ !! r) as [room|]; simpl.
  - split; [by intros (? & k & [= <-] & ?); exists k|].
    intros [k Hk]. by exists room, k.
  - split; [by intros (? & ? & [=] & _)|]. intros [k Hk].
    by rewrite lookup_empty in Hk.
Qed.

Section Handlers.
Context {R : GoRange}.

Lemma mg_handleSignaling_only_conns client msg σ :
  only_conns σ (handleSignaling client msg σ).
Proof.
  unfold handleSignaling.
  destruct (decide _); [apply mg_only_conns_refl|].
  destruct (rooms σ !! _) as [room|]; [|apply mg_only_conns_refl].
  destruct (Clients room !! _);
    [apply mg_sendMessage_only_conns|apply mg_only_conns_refl].
Qed.




Lemma mg_handleSignaling_ignores_From client msg x σ :
  handleSignaling client (with_From x msg) σ = handleSignaling client msg σ.
Proof. done. Qed.


Lemma mg_readError_removes client σ :
  handleWebSocket_readError client σ = removeClientFromRoom client σ.
Proof.
  unfold handleWebSocket_readError, removeClientFromRoom.
  destruct (decide (RoomID (client_at σ client) ≠ "")) as [H|H].
  - by rewrite decide_False.
  - rewrite decide_True; [done|]. by destruct (decide (RoomID (client_at σ client) = "")).
Qed.



Lemma mg_getOrCreateRoom_fresh roomID σ :
  rooms σ !! roomID = None →
  (getOrCreateRoom roomID σ).1 = mkRoom roomID ∅ ∧
  rooms (getOrCreateRoom roomID σ).2 !! roomID = Some (mkRoom roomID ∅).
Proof.
  intros E. unfold getOrCreateRoom. rewrite E. simpl.
  by rewrite lookup_insert_eq.
Qed.

Lemma mg_getOrCreateRoom_existing roomID σ room :
  rooms σ !! roomID = Some room → getOrCreateRoom roomID σ = (room, σ).
Proof. intros E. unfold getOrCreateRoom. by rewrite E. Qed.

Lemma mg_handleJoin_nonempty client msg σ :
  rooms_nonempty σ → rooms_nonempty (handleJoin client msg σ).
Proof.
  intros Hinv. destruct (mg_handleJoin_spec client msg σ) as (Hr & _).
  intros r room. rewrite Hr, lookup_insert.
  destruct (decide (msg_RoomID msg = r)).
  - intros [= <-]. simpl. apply insert_non_empty.
  - apply Hinv.
Qed.

Lemma mg_handleSignaling_nonempty client msg σ :
  rooms_nonempty σ → rooms_nonempty (handleSignaling client msg σ).
Proof.
  intros Hinv. destruct (mg_handleSignaling_only_conns client msg σ) as [Hr _].
  intros r room. rewrite Hr. apply Hinv.
Qed.

Lemma mg_removeClientFromRoom_nonempty client σ :
  rooms_nonempty σ → rooms_nonempty (removeClientFromRoom client σ).
Proof.
  intros Hinv.
  destruct (decide (RoomID (client_at σ client) = "")) as [E|E].
  { unfold removeClientFromRoom. by rewrite decide_True. }
  destruct (rooms σ !! RoomID (client_at σ client)) as [room|] eqn:Hroom.
  - destruct (mg_removeClientFromRoom_spec client σ room E Hroom) as (Hr & _).
    intros r room'. rewrite Hr. destruct (decide (_ = ∅)) as [Hz|Hnz].
    + rewrite lookup_delete. destruct (decide _); [done|]. apply Hinv.
    + rewrite lookup_insert. destruct (decide _); [|apply Hinv].
      by intros [= <-].
  - unfold removeClientFromRoom. by rewrite decide_False, Hroom.
Qed.

Lemma mg_dispatch_nonempty client msg σ :
  rooms_nonempty σ → rooms_nonempty (handleWebSocket_dispatch client msg σ).
Proof.
  intros Hinv. unfold handleWebSocket_dispatch, handleLeave.
  repeat destruct (decide _);
    auto using mg_handleJoin_nonempty, mg_handleSignaling_nonempty,
               mg_removeClientFromRoom_nonempty.
Qed.



End Handlers.

Lemma mg_reachable_nonempty σ : reachable σ → rooms_nonempty σ.
Proof.
  induction 1 as [|R client msg σ _ IH|R client σ _ IH].
  - intros r room. unfold initial; simpl. by rewrite lookup_empty.
  - by apply mg_dispatch_nonempty.
  - rewrite mg_readError_removes. by apply mg_removeClientFromRoom_nonempty.
Qed.

Lemma mg_reachable_foldl (l : list (addr * Message)) : ∀ σ,
  reachable σ →
  reachable (foldl (λ σ e, handleWebSocket_dispatch e.1 e.2 σ) σ l).
Proof.
  induction l as [|e l IH]; intros σ Hσ; cbn [foldl]; [done|].
  apply IH. by constructor.
Qed.

End MainGoFrames.

(** * The claims of the specification *)

(** ** C1: unicast routing *)




(** ** C2: notification of a join *)

(** What C2 asks for, on part_000: a join with a non-empty [roomId]
    queues exactly one [user-joined] envelope, with the joiner's id and
    username, for every other member of the room, exactly one [joined]
    envelope echoing the [roomId] for the joiner, and nothing for any
    other session. *)
Theorem Part000_join_notifies_others (R : GoRange) client msg σ :
  msg_RoomID msg ≠ "" →
  let r := msg_RoomID msg in
  let σ' := Part000.handleJoin client msg σ in
  (∀ other, other ≠ client → Part000.member σ r other →
     Part000.Send (Part000.client_at σ' other) =
     Part000.Send (Part000.client_at σ other)
     ++ [user_joined_msg (msg_From msg) (msg_Username msg) r]) ∧
  Part000.Send (Part000.client_at σ' client) =
    Part000.Send (Part000.client_at σ client) ++ [joined_msg r] ∧
  (∀ other, other ≠ client → ¬ Part000.member σ r other →
     Part000.Send (Part000.client_at σ' other) =
     Part000.Send (Part000.client_at σ other)) ∧
  Part000.member σ' r client ∧
  Part000.ID (Part000.client_at σ' client) = msg_From msg ∧
  Part000.Username (Part000.client_at σ' client) = msg_Username msg ∧
  Part000.RoomID (Part000.client_at σ' client) = r.
Proof.
  intros Hr r σ'.
  destruct (Part000Facts.handleJoin_spec client msg σ Hr) as (Hrooms & Hid & Hs).
  fold r σ' in Hrooms, Hid, Hs. repeat split.
  - intros other Hne Hmem. apply Part000Frames.member_entered in Hmem.
    by rewrite Hs, decide_False, decide_True.
  - by rewrite Hs, decide_True.
  - intros other Hne Hmem. rewrite Part000Frames.member_entered in Hmem.
    rewrite Hs, decide_False, decide_False by done. apply app_nil_r.
  - eexists. split; [rewrite Hrooms; apply lookup_insert_eq|].
    simpl. apply elem_of_union. left. by apply elem_of_singleton.
  - destruct (Hid client) as (-> & _). by rewrite decide_True.
  - destruct (Hid client) as (_ & _ & ->). by rewrite decide_True.
  - destruct (Hid client) as (_ & -> & _). by rewrite decide_True.
Qed.

(** On main.go the notification of a join is as C2 describes it when
    the entries of the room are stored under their sessions' current
    ids, the joiner is not stored in it under another key, and no other
    member holds the id it joins with. *)
Theorem MainGo_join_notifies_others (R : GoRange) client msg σ :
  let r := msg_RoomID msg in
  let members := MainGo.Clients (MainGo.entered σ r) in
  (∀ k c, members !! k = Some c → MainGo.ID (MainGo.client_at σ c) = k) →
  (∀ k, members !! k = Some client → k = msg_From msg) →
  (∀ c, members !! msg_From msg = Some c → c = client) →
  let σ' := MainGo.handleJoin client msg σ in
  (∀ other, other ≠ client → MainGo.member σ r other →
     MainGo.Conn (MainGo.client_at σ' other) =
     MainGo.Conn (MainGo.client_at σ other)
     ++ [user_joined_msg (msg_From msg) (msg_Username msg) r]) ∧
  MainGo.Conn (MainGo.client_at σ' client) =
    MainGo.Conn (MainGo.client_at σ client) ++ [joined_msg r] ∧
  (∀ other, other ≠ client → ¬ MainGo.member σ r other →
     MainGo.Conn (MainGo.client_at σ' other) =
     MainGo.Conn (MainGo.client_at σ other)).
Proof.
  intros r members Hkeys Hself Hfree σ'.
  destruct (MainGoFacts.mg_handleJoin_spec client msg σ) as (_ & _ & Hs).
  fold r members σ' in Hs.
  assert (Hins : ∀ k c, c ≠ client →
            <[msg_From msg := client]> members !! k = Some c →
            k ≠ msg_From msg ∧ members !! k = Some c).
  { intros k c Hc. rewrite lookup_insert.
    destruct (decide (msg_From msg = k)) as [<-|Hk]; [by intros [= ->]|].
    done. }
  repeat split.
  - intros other Hne [k Hk]%MainGoFrames.mg_member_entered. fold members in Hk.
    assert (Hkne : k ≠ msg_From msg).
    { intros ->. by apply Hne, Hfree. }
    rewrite Hs, decide_False by done. cbn [app].
    rewrite (MainGoFrames.mg_copies_one _ _ _ k); [done| |done|].
    + by rewrite lookup_insert_ne.
    + intros k' Hk'. apply Hins in Hk' as [_ Hk']; [|done].
      by rewrite <- (Hkeys _ _ Hk'), <- (Hkeys _ _ Hk).
  - rewrite Hs, decide_True by done.
    rewrite MainGoFrames.mg_copies_none; [done|].
    intros k. rewrite lookup_insert.
    destruct (decide (msg_From msg = k)) as [<-|Hk]; [done|]. apply Hself.
  - intros other Hne Hno. rewrite Hs, decide_False by done. cbn [app].
    rewrite MainGoFrames.mg_copies_none; [apply app_nil_r|].
    intros k Hk. apply Hins in Hk as [_ Hk]; [|done].
    exfalso. apply Hno, MainGoFrames.mg_member_entered. by exists k.
Qed.

(** C2 on main.go, at the failing inputs.  Session 1 joined room R as
    "a" and joins R again as "b": its old entry "a" is still in the map
    and differs from its id, so the joiner is sent the [user-joined] of
    its own join.  And when session 2 joins R under the id "a" that
    member 1 holds, member 1 is not notified. *)
Theorem C2_main_go_join_notification :
  (let σ := Scenarios.m_run Scenarios.alone_in_R in
   let σ' := MainGo.handleWebSocket_dispatch 1
               (Scenarios.join_msg "b" "R" "alice") σ in
   MainGo.Conn (MainGo.client_at σ' 1) =
     MainGo.Conn (MainGo.client_at σ 1)
     ++ [joined_msg "R"; user_joined_msg "b" "alice" "R"]) ∧
  (let σ := Scenarios.m_run Scenarios.alone_in_R in
   let σ' := MainGo.handleWebSocket_dispatch 2
               (Scenarios.join_msg "a" "R" "bob") σ in
   MainGo.Clients (MainGo.entered σ "R") !! "a" = Some 1 ∧
   MainGo.Clients (MainGo.entered σ' "R") = {["a" := 2]} ∧
   MainGo.Conn (MainGo.client_at σ' 1) = MainGo.Conn (MainGo.client_at σ 1)).
Proof.
  split; [|repeat split]; vm_compute; reflexivity.
Qed.

(** ** C3: the [from] of routed envelopes *)



(** ** C4: no room of the registry is empty *)

(** C4.  In every store the router can reach, every registered room has
    a member.  A leave or a read error of a session that leaves its
    room without members takes the room out of the registry in that
    same call, and a join (in main.go: [getOrCreateRoom]) for an id
    that is not registered builds a new room that holds nothing of an
    earlier room of that id. *)
Theorem C4_rooms_never_empty :
  (∀ σ, Part000.reachable σ → Part000.rooms_nonempty σ) ∧
  (∀ (R : GoRange) client msg σ room,
     let r := Part000.RoomID (Part000.client_at σ client) in
     r ≠ "" → Part000.rooms σ !! r = Some room →
     size (Part000.Clients room ∖ {[client]}) = 0 →
     Part000.rooms (Part000.handleLeave client msg σ) !! r = None ∧
     Part000.rooms (Part000.handleWebSocket_readError client σ) !! r = None) ∧
  (∀ (R : GoRange) client msg σ,
     msg_RoomID msg ≠ "" → Part000.rooms σ !! msg_RoomID msg = None →
     Part000.rooms (Part000.handleJoin client msg σ) !! msg_RoomID msg =
     Some (Part000.mkRoom (msg_RoomID msg) {[client]})) ∧
  (∀ σ, MainGo.reachable σ → MainGo.rooms_nonempty σ) ∧
  (∀ (R : GoRange) client msg σ room,
     let r := MainGo.RoomID (MainGo.client_at σ client) in
     r ≠ "" → MainGo.rooms σ !! r = Some room →
     size (delete (MainGo.ID (MainGo.client_at σ client))
                  (MainGo.Clients room)) = 0 →
     MainGo.rooms (MainGo.handleLeave client msg σ) !! r = None ∧
     MainGo.rooms (MainGo.handleWebSocket_readError client σ) !! r = None) ∧
  (∀ roomID σ,
     MainGo.rooms σ !! roomID = None →
     (MainGo.getOrCreateRoom roomID σ).1 = MainGo.mkRoom roomID ∅ ∧
     MainGo.rooms (MainGo.getOrCreateRoom roomID σ).2 !! roomID =
       Some (MainGo.mkRoom roomID ∅)) ∧
  (∀ (R : GoRange) client msg σ,
     MainGo.rooms σ !! msg_RoomID msg = None →
     MainGo.rooms (MainGo.handleJoin client msg σ) !! msg_RoomID msg =
     Some (MainGo.mkRoom (msg_RoomID msg) {[msg_From msg := client]})).
Proof.
  split; [exact Part000Frames.reachable_nonempty|].
  split.
  { intros R client msg σ room r Hr Hroom Hsize.
    rewrite Part000Frames.readError_removes. unfold Part000.handleLeave.
    destruct (Part000Facts.removeClientFromRoom_spec client σ room Hr Hroom)
      as (-> & _).
    apply size_empty_iff, leibniz_equiv in Hsize.
    rewrite decide_True by done. by rewrite lookup_delete_eq. }
  split.
  { intros R client msg σ Hr Hnone.
    destruct (Part000Facts.handleJoin_spec client msg σ Hr) as (-> & _).
    rewrite lookup_insert_eq. unfold Part000.entered. rewrite Hnone. simpl.
    by rewrite (right_id_L ∅ (∪)). }
  split; [exact MainGoFrames.mg_reachable_nonempty|].
  split.
  { intros R client msg σ room r Hr Hroom Hsize.
    rewrite MainGoFrames.mg_readError_removes. unfold MainGo.handleLeave.
    destruct (MainGoFacts.mg_removeClientFromRoom_spec client σ room Hr Hroom)
      as (-> & _).
    apply map_size_empty_iff in Hsize.
    rewrite decide_True by done. by rewrite lookup_delete_eq. }
  split; [exact MainGoFrames.mg_getOrCreateRoom_fresh|].
  intros R client msg σ Hnone.
  destruct (MainGoFacts.mg_handleJoin_spec client msg σ) as (-> & _).
  rewrite lookup_insert_eq. unfold MainGo.entered. rewrite Hnone. simpl.
  by rewrite insert_empty.
Qed.

(** With sessions 1 and 2 in room R every room has a member; when the
    only member of R leaves, R is gone from the registry. *)
Lemma C4_rooms_never_empty_witness :
  Part000.rooms_nonempty (Scenarios.p_run Scenarios.two_in_R) ∧
  MainGo.rooms_nonempty (Scenarios.m_run Scenarios.two_in_R) ∧
  Part000.rooms (Part000.handleLeave 1 Scenarios.leave_msg
                   (Scenarios.p_run Scenarios.alone_in_R)) !! "R" = None ∧
  MainGo.rooms (MainGo.handleLeave 1 Scenarios.leave_msg
                  (Scenarios.m_run Scenarios.alone_in_R)) !! "R" = None.
Proof.
  destruct C4_rooms_never_empty as (P1 & P2 & _ & M1 & M2 & _).
  split; [|split; [|split]].
  - apply P1, Part000Frames.reachable_foldl. constructor.
  - apply M1, MainGoFrames.mg_reachable_foldl. constructor.
  - pose (σ := Scenarios.p_run Scenarios.alone_in_R).
    pose (room := Part000.entered σ "R").
    assert (Er : Part000.RoomID (Part000.client_at σ 1) = "R")
      by (vm_compute; reflexivity).
    assert (Hr : Part000.RoomID (Part000.client_at σ 1) ≠ "")
      by (rewrite Er; discriminate).
    assert (Hroom : Part000.rooms σ !! Part000.RoomID (Part000.client_at σ 1)
                    = Some room) by (vm_compute; reflexivity).
    assert (Hsize : size (Part000.Clients room ∖ {[1]}) = 0)
      by (vm_compute; reflexivity).
    destruct (P2 canonical_range 1 Scenarios.leave_msg σ room Hr Hroom Hsize)
      as [H _].
    rewrite Er in H. exact H.
  - pose (σ := Scenarios.m_run Scenarios.alone_in_R).
    pose (room := MainGo.entered σ "R").
    assert (Er : MainGo.RoomID (MainGo.client_at σ 1) = "R")
      by (vm_compute; reflexivity).
    assert (Hr : MainGo.RoomID (MainGo.client_at σ 1) ≠ "")
      by (rewrite Er; discriminate).
    assert (Hroom : MainGo.rooms σ !! MainGo.RoomID (MainGo.client_at σ 1)
                    = Some room) by (vm_compute; reflexivity).
    assert (Hsize : size (delete (MainGo.ID (MainGo.client_at σ 1))
                                 (MainGo.Clients room)) = 0)
      by (vm_compute; reflexivity).
    destruct (M2 canonical_range 1 Scenarios.leave_msg σ room Hr Hroom Hsize)
      as [H _].
    rewrite Er in H. exact H.
Defined.

(** ** C5: a join without a room *)

(** What C5 asks for, on part_000: a join whose [roomId] is empty
    leaves the registry, every queue and every session's [RoomID] as
    they were. *)
Theorem Part000_join_without_room_dropped (R : GoRange) client msg σ :
  msg_RoomID msg = "" →
  let σ' := Part000.handleJoin client msg σ in
  Part000.rooms σ' = Part000.rooms σ ∧
  ∀ c, Part000.Send (Part000.client_at σ' c) = Part000.Send (Part000.client_at σ c) ∧
       Part000.RoomID (Part000.client_at σ' c) = Part000.RoomID (Part000.client_at σ c).
Proof.
  intros Hr σ'. subst σ'. rewrite Part000Facts.handleJoin_dropped by done.
  split; [done|]. intros c. apply Part000Frames.setters_only_fields.
Qed.

(** C5 on main.go, at the failing input: the first envelope of session
    1 is a join as "a" with an empty [roomId].  A room is registered
    under the empty id with session 1 as its member, and session 1 is
    sent [joined]; as its [RoomID] is empty, neither a leave nor a read
    error takes it out of that room again. *)
Theorem C5_main_go_join_without_room :
  let σ' := MainGo.handleWebSocket_dispatch 1
              (Scenarios.join_msg "a" "" "alice") MainGo.initial in
  MainGo.rooms σ' !! "" = Some (MainGo.mkRoom "" {["a" := 1]}) ∧
  MainGo.Conn (MainGo.client_at σ' 1) = [joined_msg ""] ∧
  MainGo.handleWebSocket_dispatch 1 Scenarios.leave_msg σ' = σ' ∧
  MainGo.handleWebSocket_readError 1 σ' = σ'.
Proof.
  repeat split; vm_compute; reflexivity.
Qed.

(** ** C6: leave and disconnect *)

(** What C6 asks for, on part_000: a leave and a read error both run
    [removeClientFromRoom]; a session with an empty [RoomID] changes
    nothing; otherwise the session is no member of the room its
    [RoomID] names afterwards, every other member of that room is
    queued exactly one [user-left] with the session's id, and neither
    the session nor any session outside the room is queued anything. *)
Theorem Part000_departure_cleanup (R : GoRange) client msg σ :
  let r := Part000.RoomID (Part000.client_at σ client) in
  let σ' := Part000.removeClientFromRoom client σ in
  Part000.handleLeave client msg σ = σ' ∧
  Part000.handleWebSocket_readError client σ = σ' ∧
  (r = "" → σ' = σ) ∧
  (r ≠ "" →
   ¬ Part000.member σ' r client ∧
   (∀ other, other ≠ client → Part000.member σ r other →
      Part000.Send (Part000.client_at σ' other) =
      Part000.Send (Part000.client_at σ other)
      ++ [user_left_msg (Part000.ID (Part000.client_at σ client)) r]) ∧
   Part000.Send (Part000.client_at σ' client) =
     Part000.Send (Part000.client_at σ client) ∧
   (∀ other, ¬ Part000.member σ r other →
      Part000.Send (Part000.client_at σ' other) =
      Part000.Send (Part000.client_at σ other))).
Proof.
  intros r σ'. split; [done|]. split; [apply Part000Frames.readError_removes|].
  split.
  { intros E. subst σ'. unfold Part000.removeClientFromRoom. fold r.
    by rewrite decide_True. }
  intros Hr. destruct (Part000.rooms σ !! r) as [room|] eqn:Hroom.
  - destruct (Part000Facts.removeClientFromRoom_spec client σ room Hr Hroom)
      as (Hrooms & _ & Hs).
    fold r σ' in Hrooms, Hs. repeat split.
    + intros (room' & Hroom' & Hin). rewrite Hrooms in Hroom'.
      destruct (decide (_ = ∅)).
      * by rewrite lookup_delete_eq in Hroom'.
      * rewrite lookup_insert_eq in Hroom'. injection Hroom' as <-.
        simpl in Hin. apply elem_of_difference in Hin as [_ Hin].
        apply Hin. by apply elem_of_singleton.
    + intros other Hne (room' & Hroom' & Hin). rewrite Hroom in Hroom'.
      injection Hroom' as <-. by rewrite Hs, decide_True.
    + rewrite Hs, decide_False by tauto. apply app_nil_r.
    + intros other Hno. rewrite Hs, decide_False; [apply app_nil_r|].
      intros [Hin _]. apply Hno. by exists room.
  - assert (E : σ' = σ).
    { subst σ'. unfold Part000.removeClientFromRoom. fold r.
      by rewrite decide_False, Hroom. }
    rewrite E. repeat split.
    + intros (room' & Hroom' & _). by rewrite Hroom in Hroom'.
    + intros other _ (room' & Hroom' & _). by rewrite Hroom in Hroom'.
Qed.

(** On main.go the cleanup of a departure is as C6 describes it when
    the entries of the room are stored under their sessions' current
    ids and the departing session is stored in it. *)
Theorem MainGo_departure_cleanup (R : GoRange) client msg σ room :
  let r := MainGo.RoomID (MainGo.client_at σ client) in
  let id := MainGo.ID (MainGo.client_at σ client) in
  r ≠ "" → MainGo.rooms σ !! r = Some room →
  (∀ k c, MainGo.Clients room !! k = Some c →
          MainGo.ID (MainGo.client_at σ c) = k) →
  MainGo.Clients room !! id = Some client →
  let σ' := MainGo.removeClientFromRoom client σ in
  MainGo.handleLeave client msg σ = σ' ∧
  MainGo.handleWebSocket_readError client σ = σ' ∧
  ¬ MainGo.member σ' r client ∧
  (∀ other, other ≠ client → MainGo.member σ r other →
     MainGo.Conn (MainGo.client_at σ' other) =
     MainGo.Conn (MainGo.client_at σ other) ++ [user_left_msg id r]) ∧
  MainGo.Conn (MainGo.client_at σ' client) =
    MainGo.Conn (MainGo.client_at σ client) ∧
  (∀ other, ¬ MainGo.member σ r other →
     MainGo.Conn (MainGo.client_at σ' other) =
     MainGo.Conn (MainGo.client_at σ other)).
Proof.
  intros r id Hr Hroom Hkeys Hin σ'.
  destruct (MainGoFacts.mg_removeClientFromRoom_spec client σ room Hr Hroom)
    as (Hrooms & _ & Hs).
  fold r id σ' in Hrooms, Hs.
  assert (Hdel : ∀ k c, delete id (MainGo.Clients room) !! k = Some c →
            k ≠ id ∧ MainGo.Clients room !! k = Some c).
  { intros k c. rewrite lookup_delete.
    by destruct (decide (id = k)) as [<-|Hk]. }
  assert (Hnot : ∀ k, delete id (MainGo.Clients room) !! k = Some client → False).
  { intros k Hk. apply Hdel in Hk as [Hk Hk']. apply Hk.
    symmetry. apply (Hkeys _ _ Hk'). }
  split; [done|]. split; [apply MainGoFrames.mg_readError_removes|].
  repeat split.
  - intros (room' & k & Hroom' & Hk). rewrite Hrooms in Hroom'.
    destruct (decide (_ = ∅)).
    + by rewrite lookup_delete_eq in Hroom'.
    + rewrite lookup_insert_eq in Hroom'. injection Hroom' as <-.
      simpl in Hk. by apply Hnot in Hk.
  - intros other Hne (room' & k & Hroom' & Hk). rewrite Hroom in Hroom'.
    injection Hroom' as <-.
    assert (Hkne : k ≠ id).
    { intros ->. rewrite Hin in Hk. by injection Hk. }
    rewrite Hs. rewrite (MainGoFrames.mg_copies_one _ _ _ k); [done| |done|].
    + by rewrite lookup_delete_ne.
    + intros k' Hk'. apply Hdel in Hk' as [_ Hk'].
      by rewrite <- (Hkeys _ _ Hk'), <- (Hkeys _ _ Hk).
  - rewrite Hs, MainGoFrames.mg_copies_none; [apply app_nil_r|].
    intros k Hk. by apply Hnot in Hk.
  - intros other Hno. rewrite Hs, MainGoFrames.mg_copies_none; [apply app_nil_r|].
    intros k Hk. apply Hdel in Hk as [_ Hk]. exfalso. apply Hno.
    by exists room, k.
Qed.

(** C6 on main.go, at the failing inputs.  Session 1 joined room R as
    "a" and again as "b", then leaves: only its entry "b" is deleted, so
    it is still a member of R, under "a", and it is sent the
    [user-left] of its own departure.  And when sessions 1 and 2 both
    joined R as "a", the read error of session 1 deletes the entry of
    session 2 and with it the room, and session 2 is told nothing. *)
Theorem C6_main_go_departure :
  (let σ := Scenarios.m_run Scenarios.rejoined_renamed in
   let σ' := MainGo.handleWebSocket_dispatch 1 Scenarios.leave_msg σ in
   MainGo.Clients (MainGo.entered σ' "R") = {["a" := 1]} ∧
   MainGo.Conn (MainGo.client_at σ' 1) =
     MainGo.Conn (MainGo.client_at σ 1) ++ [user_left_msg "b" "R"]) ∧
  (let σ := Scenarios.m_run Scenarios.same_id_twice in
   let σ' := MainGo.handleWebSocket_readError 1 σ in
   MainGo.Clients (MainGo.entered σ "R") = {["a" := 2]} ∧
   MainGo.rooms σ' !! "R" = None ∧
   MainGo.Conn (MainGo.client_at σ' 2) = MainGo.Conn (MainGo.client_at σ 2)).
Proof.
  repeat split; vm_compute; reflexivity.
Qed.

(** ** C7: signaling that cannot be delivered *)



(** ** C8: a second join into another room *)

(** C8.  A session that is a member of room [R1] and joins a room with
    another, non-empty id is afterwards a member of both rooms. *)
Theorem C8_second_join_keeps_first_room :
  (∀ (R : GoRange) client msg σ R1,
     Part000.member σ R1 client →
     msg_RoomID msg ≠ "" → msg_RoomID msg ≠ R1 →
     let σ' := Part000.handleJoin client msg σ in
     Part000.member σ' R1 client ∧ Part000.member σ' (msg_RoomID msg) client) ∧
  (∀ (R : GoRange) client msg σ R1,
     MainGo.member σ R1 client →
     msg_RoomID msg ≠ "" → msg_RoomID msg ≠ R1 →
     let σ' := MainGo.handleJoin client msg σ in
     MainGo.member σ' R1 client ∧ MainGo.member σ' (msg_RoomID msg) client).
Proof.
  split.
  - intros R client msg σ R1 (room & Hroom & Hin) Hr Hne σ'.
    destruct (Part000Facts.handleJoin_spec client msg σ Hr) as (Hrooms & _).
    fold σ' in Hrooms. split.
    + exists room. split; [|done]. by rewrite Hrooms, lookup_insert_ne.
    + eexists. split; [rewrite Hrooms; apply lookup_insert_eq|].
      simpl. apply elem_of_union. left. by apply elem_of_singleton.
  - intros R client msg σ R1 (room & k & Hroom & Hin) Hr Hne σ'.
    destruct (MainGoFacts.mg_handleJoin_spec client msg σ) as (Hrooms & _).
    fold σ' in Hrooms. split.
    + exists room, k. split; [|done]. by rewrite Hrooms, lookup_insert_ne.
    + eexists _, (msg_From msg).
      split; [rewrite Hrooms; apply lookup_insert_eq|].
      simpl. apply lookup_insert_eq.
Qed.

(** Session 1, the member of room R, joins room S: it is in R and in S. *)
Lemma C8_second_join_keeps_first_room_witness :
  (let σ' := Part000.handleJoin 1 (Scenarios.join_msg "a" "S" "alice")
               (Scenarios.p_run Scenarios.alone_in_R) in
   Part000.member σ' "R" 1 ∧ Part000.member σ' "S" 1) ∧
  (let σ' := MainGo.handleJoin 1 (Scenarios.join_msg "a" "S" "alice")
               (Scenarios.m_run Scenarios.alone_in_R) in
   MainGo.member σ' "R" 1 ∧ MainGo.member σ' "S" 1).
Proof.
  split.
  - assert (Hm : Part000.member (Scenarios.p_run Scenarios.alone_in_R) "R" 1).
    { exists (Part000.entered (Scenarios.p_run Scenarios.alone_in_R) "R").
      split; vm_compute; reflexivity. }
    assert (H1 : msg_RoomID (Scenarios.join_msg "a" "S" "alice") ≠ "")
      by (vm_compute; discriminate).
    assert (H2 : msg_RoomID (Scenarios.join_msg "a" "S" "alice") ≠ "R")
      by (vm_compute; discriminate).
    exact (proj1 C8_second_join_keeps_first_room canonical_range 1
             (Scenarios.join_msg "a" "S" "alice")
             (Scenarios.p_run Scenarios.alone_in_R) "R" Hm H1 H2).
  - assert (Hm : MainGo.member (Scenarios.m_run Scenarios.alone_in_R) "R" 1).
    { exists (MainGo.entered (Scenarios.m_run Scenarios.alone_in_R) "R"), "a".
      split; vm_compute; reflexivity. }
    assert (H1 : msg_RoomID (Scenarios.join_msg "a" "S" "alice") ≠ "")
      by (vm_compute; discriminate).
    assert (H2 : msg_RoomID (Scenarios.join_msg "a" "S" "alice") ≠ "R")
      by (vm_compute; discriminate).
    exact (proj2 C8_second_join_keeps_first_room canonical_range 1
             (Scenarios.join_msg "a" "S" "alice")
             (Scenarios.m_run Scenarios.alone_in_R) "R" Hm H1 H2).
Defined.

(** ** C9: a join under an id that is taken (main.go) *)

(** C9, as amended.  In main.go, let a session join a room with a
    non-empty id whose map holds another session, [previous], under the
    joiner's id and under no other key, [previous] having that id and
    naming that room in its [RoomID].  Then the entry holds the joiner
    afterwards and [previous] is no member of the room any more; the
    join wrote nothing to [previous] and no [user-left] to anyone;
    [previous] still names the room, and its leave or read error
    deletes the entry of the joiner. *)
Theorem C9_join_under_taken_id :
  ∀ (R : GoRange) joiner previous msg σ room,
    let r := msg_RoomID msg in
    let id := msg_From msg in
    r ≠ "" →
    MainGo.rooms σ !! r = Some room →
    MainGo.Clients room !! id = Some previous →
    (∀ k, MainGo.Clients room !! k = Some previous → k = id) →
    previous ≠ joiner →
    MainGo.ID (MainGo.client_at σ previous) = id →
    MainGo.RoomID (MainGo.client_at σ previous) = r →
    let σ1 := MainGo.handleJoin joiner msg σ in
    let σ2 := MainGo.removeClientFromRoom previous σ1 in
    (∃ room1, MainGo.rooms σ1 !! r = Some room1 ∧
              MainGo.Clients room1 !! id = Some joiner) ∧
    ¬ MainGo.member σ1 r previous ∧
    MainGo.Conn (MainGo.client_at σ1 previous) =
      MainGo.Conn (MainGo.client_at σ previous) ∧
    (∀ c, ∃ extra,
       MainGo.Conn (MainGo.client_at σ1 c) =
         MainGo.Conn (MainGo.client_at σ c) ++ extra ∧
       Forall (λ m, msg_Type m ≠ "user-left") extra) ∧
    MainGo.RoomID (MainGo.client_at σ1 previous) = r ∧
    MainGo.handleLeave previous msg σ1 = σ2 ∧
    MainGo.handleWebSocket_readError previous σ1 = σ2 ∧
    (∀ room2, MainGo.rooms σ2 !! r = Some room2 →
              MainGo.Clients room2 !! id = None).
Proof.
  intros R joiner previous msg σ room r id Hr Hroom Hprev Honly Hne Hid Hrid σ1 σ2.
  destruct (MainGoFacts.mg_handleJoin_spec joiner msg σ) as (Hrooms & Hids & Hs).
  fold r id σ1 in Hrooms, Hids, Hs.
  assert (Hent : MainGo.entered σ r = room).
  { unfold MainGo.entered. by rewrite Hroom. }
  rewrite Hent in Hrooms, Hs.
  set (members := <[id := joiner]> (MainGo.Clients room)) in *.
  assert (Hgone : ∀ k, members !! k = Some previous → k = id ∧ False).
  { intros k. unfold members. rewrite lookup_insert.
    destruct (decide (id = k)) as [<-|Hk]; [by intros [= ->]|].
    intros Hk'. by apply Honly in Hk'. }
  assert (Hrid1 : MainGo.RoomID (MainGo.client_at σ1 previous) = r).
  { destruct (Hids previous) as (_ & -> & _). by rewrite decide_False. }
  assert (Hid1 : MainGo.ID (MainGo.client_at σ1 previous) = id).
  { destruct (Hids previous) as (-> & _). by rewrite decide_False. }
  assert (Hroom1 : MainGo.rooms σ1 !! r =
                   Some (MainGo.mkRoom (MainGo.Room_ID room) members)).
  { rewrite Hrooms. apply lookup_insert_eq. }
  split; [|split; [|split; [|split; [|split; [|split; [|split]]]]]].
  - eexists. split; [exact Hroom1|]. simpl. apply lookup_insert_eq.
  - intros (room1 & k & Hroom1' & Hk). rewrite Hroom1 in Hroom1'.
    injection Hroom1' as <-. simpl in Hk. by apply Hgone in Hk as [_ []].
  - rewrite Hs, decide_False by done. cbn [app].
    rewrite MainGoFrames.mg_copies_none; [apply app_nil_r|].
    intros k Hk. by apply Hgone in Hk as [_ []].
  - intros c. eexists. split; [apply Hs|].
    apply Forall_app. split.
    + destruct (decide _); repeat constructor. discriminate.
    + apply Forall_replicate. discriminate.
  - exact Hrid1.
  - reflexivity.
  - apply MainGoFrames.mg_readError_removes.
  - intros room2.
    assert (Hr1 : MainGo.RoomID (MainGo.client_at σ1 previous) ≠ "")
      by (by rewrite Hrid1).
    rewrite <- Hrid1 in Hroom1.
    destruct (MainGoFacts.mg_removeClientFromRoom_spec previous σ1 _ Hr1 Hroom1)
      as (Hrooms2 & _).
    fold σ2 in Hrooms2. rewrite Hrid1, Hid1 in Hrooms2. simpl in Hrooms2.
    rewrite Hrooms2. destruct (decide _).
    + by rewrite lookup_delete_eq.
    + rewrite lookup_insert_eq. intros [= <-]. simpl. apply lookup_delete_eq.
Qed.

(** Session 1 is in room R as "a"; session 2 joins R as "a".  Session 1
    is no member any more, and when it leaves, the entry of session 2
    goes. *)
Lemma C9_join_under_taken_id_witness :
  let σ := Scenarios.m_run Scenarios.alone_in_R in
  let σ1 := MainGo.handleJoin 2 (Scenarios.join_msg "a" "R" "bob") σ in
  let σ2 := MainGo.removeClientFromRoom 1 σ1 in
  ¬ MainGo.member σ1 "R" 1 ∧
  ∀ room2, MainGo.rooms σ2 !! "R" = Some room2 →
           MainGo.Clients room2 !! "a" = None.
Proof.
  intros σ σ1 σ2.
  pose (msg := Scenarios.join_msg "a" "R" "bob").
  pose (room := MainGo.entered σ "R").
  assert (Hr : msg_RoomID msg ≠ "") by (vm_compute; discriminate).
  assert (Hroom : MainGo.rooms σ !! msg_RoomID msg = Some room)
    by (vm_compute; reflexivity).
  assert (Hmem : MainGo.Clients room = {["a" := 1]})
    by (vm_compute; reflexivity).
  assert (Hprev : MainGo.Clients room !! msg_From msg = Some 1)
    by (vm_compute; reflexivity).
  assert (Honly : ∀ k, MainGo.Clients room !! k = Some 1 → k = msg_From msg).
  { intros k. rewrite Hmem. intros [<- _]%lookup_singleton_Some. reflexivity. }
  assert (Hne : 1 ≠ 2) by lia.
  assert (Hid : MainGo.ID (MainGo.client_at σ 1) = msg_From msg)
    by (vm_compute; reflexivity).
  assert (Hrid : MainGo.RoomID (MainGo.client_at σ 1) = msg_RoomID msg)
    by (vm_compute; reflexivity).
  destruct (C9_join_under_taken_id canonical_range 2 1 msg σ room
              Hr Hroom Hprev Honly Hne Hid Hrid)
    as (_ & Hgone & _ & _ & _ & _ & _ & Hdel).
  split; [exact Hgone|exact Hdel].
Defined.

(** C9 as worded fails on main.go at two stores.  In the room with the
    empty id, which a join without [roomId] registers, session 1 is
    stored as "a" and session 2 joins as "a": the leave and the read
    error of session 1 return at once, its [RoomID] being empty, and
    the entry of session 2 stays.  And when session 1 is stored in room
    R under "x" and under "a", its id being "a", the join of session 2
    as "a" leaves it a member of R. *)
Lemma C9_counterexample :
  (let σ := Scenarios.m_run Scenarios.alone_in_unnamed_room in
   let σ1 := MainGo.handleJoin 2 (Scenarios.join_msg "a" "" "bob") σ in
   MainGo.Clients (MainGo.entered σ "") !! "a" = Some 1 ∧
   MainGo.ID (MainGo.client_at σ 1) = "a" ∧
   MainGo.RoomID (MainGo.client_at σ1 1) = "" ∧
   MainGo.Clients (MainGo.entered σ1 "") !! "a" = Some 2 ∧
   ¬ (∀ room2,
        MainGo.rooms (MainGo.handleLeave 1 Scenarios.leave_msg σ1) !! ""
          = Some room2 →
        MainGo.Clients room2 !! "a" = None) ∧
   ¬ (∀ room2,
        MainGo.rooms (MainGo.handleWebSocket_readError 1 σ1) !! ""
          = Some room2 →
        MainGo.Clients room2 !! "a" = None)) ∧
  (let σ := Scenarios.m_run Scenarios.stale_entry in
   let σ1 := MainGo.handleJoin 2 (Scenarios.join_msg "a" "R" "bob") σ in
   MainGo.Clients (MainGo.entered σ "R") !! "a" = Some 1 ∧
   MainGo.ID (MainGo.client_at σ 1) = "a" ∧
   MainGo.RoomID (MainGo.client_at σ 1) = "R" ∧
   MainGo.Clients (MainGo.entered σ1 "R") !! "a" = Some 2 ∧
   ¬ ¬ MainGo.member σ1 "R" 1).
Proof.
  split.
  - intros σ σ1.
    split; [vm_compute; reflexivity|]. split; [vm_compute; reflexivity|].
    split; [vm_compute; reflexivity|]. split; [vm_compute; reflexivity|].
    split.
    + intros H.
      assert (E : MainGo.rooms (MainGo.handleLeave 1 Scenarios.leave_msg σ1) !! ""
                  = Some (MainGo.mkRoom "" {["a" := 2]}))
        by (vm_compute; reflexivity).
      apply H in E. vm_compute in E. discriminate E.
    + intros H.
      assert (E : MainGo.rooms (MainGo.handleWebSocket_readError 1 σ1) !! ""
                  = Some (MainGo.mkRoom "" {["a" := 2]}))
        by (vm_compute; reflexivity).
      apply H in E. vm_compute in E. discriminate E.
  - intros σ σ1.
    split; [vm_compute; reflexivity|]. split; [vm_compute; reflexivity|].
    split; [vm_compute; reflexivity|]. split; [vm_compute; reflexivity|].
    intros H. apply H. exists (MainGo.entered σ1 "R"), "x".
    split; vm_compute; reflexivity.
Qed.

(** ** C10: what a dropped join still writes (part_000) *)

(** C10.  In part_000 a join whose [roomId] is empty stores the
    envelope's [from] and [username] as the session's [ID] and
    [Username] and leaves its [RoomID] as it was; the queue of the
    session, every other session and the registry are untouched. *)
Theorem C10_dropped_join_overwrites_identity :
  ∀ (R : GoRange) client msg σ,
    msg_RoomID msg = "" →
    let σ' := Part000.handleJoin client msg σ in
    Part000.ID (Part000.client_at σ' client) = msg_From msg ∧
    Part000.Username (Part000.client_at σ' client) = msg_Username msg ∧
    Part000.RoomID (Part000.client_at σ' client) =
      Part000.RoomID (Part000.client_at σ client) ∧
    Part000.Send (Part000.client_at σ' client) =
      Part000.Send (Part000.client_at σ client) ∧
    (∀ c, c ≠ client → Part000.client_at σ' c = Part000.client_at σ c) ∧
    Part000.rooms σ' = Part000.rooms σ ∧
    (msg_Type msg = "join" →
     Part000.handleWebSocket_dispatch client msg σ = σ').
Proof.
  intros R client msg σ Hr σ'.
  assert (E : σ' = Part000.set_Username client (msg_Username msg)
                     (Part000.set_ID client (msg_From msg) σ))
    by (by apply Part000Facts.handleJoin_dropped).
  assert (Hat : ∀ c, Part000.client_at σ' c =
            if decide (c = client)
            then Part000.mkClient (msg_From msg)
                   (Part000.RoomID (Part000.client_at σ client))
                   (msg_Username msg)
                   (Part000.Send (Part000.client_at σ client))
            else Part000.client_at σ c).
  { intros c. rewrite E. unfold Part000.set_Username, Part000.set_ID.
    rewrite !Part000Facts.client_at_store.
    rewrite !(decide_True (P := client = client)) by done. simpl.
    by destruct (decide (c = client)). }
  repeat split.
  - by rewrite Hat, decide_True.
  - by rewrite Hat, decide_True.
  - by rewrite Hat, decide_True.
  - by rewrite Hat, decide_True.
  - intros c Hc. by rewrite Hat, decide_False.
  - by rewrite E.
  - intros Hty. unfold Part000.handleWebSocket_dispatch.
    by rewrite decide_True.
Qed.

(** Session 1, "a"/"alice" in room R, sends a join as "z"/"zed" with no
    [roomId]: it is "z"/"zed" now, and still names R. *)
Lemma C10_dropped_join_overwrites_identity_witness :
  let σ := Scenarios.p_run Scenarios.alone_in_R in
  let σ' := Part000.handleJoin 1 (Scenarios.join_msg "z" "" "zed") σ in
  Part000.ID (Part000.client_at σ 1) = "a" ∧
  Part000.ID (Part000.client_at σ' 1) = "z" ∧
  Part000.Username (Part000.client_at σ' 1) = "zed" ∧
  Part000.RoomID (Part000.client_at σ' 1) = Part000.RoomID (Part000.client_at σ 1).
Proof.
  intros σ σ'.
  assert (Hr : msg_RoomID (Scenarios.join_msg "z" "" "zed") = "")
    by (vm_compute; reflexivity).
  destruct (C10_dropped_join_overwrites_identity canonical_range 1
              (Scenarios.join_msg "z" "" "zed") σ Hr)
    as (H1 & H2 & H3 & _).
  split; [vm_compute; reflexivity|]. split; [exact H1|].
  split; [exact H2|exact H3].
Defined.

(** * What one operation can touch (part_000) *)
Module Part000Steps.
Import Part000 Part000Facts Part000Frames.

Section Handlers.
Context {R : GoRange}.

(** The shape of what [handleSignaling] does. *)
Lemma handleSignaling_cases client msg σ :
  handleSignaling client msg σ = σ ∨
  ∃ room target,
    msg_To msg ≠ "" ∧
    rooms σ !! RoomID (client_at σ client) = Some room ∧
    target ∈ Clients room ∧ ID (client_at σ target) = msg_To msg ∧
    handleSignaling client msg σ =
    enqueue target (with_From (ID (client_at σ client)) msg) σ.
Proof.
  unfold handleSignaling. destruct (decide _) as [|Hto]; [by left|].
  destruct (rooms σ !! _) as [room|] eqn:Hroom; [|by left].
  destruct (findTarget σ room (msg_To msg)) as [t|] eqn:Hfind; [|by left].
  right. exists room, t. apply findTarget_Some in Hfind as [? ?]. done.
Qed.

(** What [handleJoin] does to queues, fields, registry and membership. *)
Lemma handleJoin_summary client msg σ :
  let σ' := handleJoin client msg σ in
  let r := RoomID (client_at σ' client) in
  (∀ c, c ≠ client → ID (client_at σ' c) = ID (client_at σ c) ∧
                      RoomID (client_at σ' c) = RoomID (client_at σ c) ∧
                      Username (client_at σ' c) = Username (client_at σ c)) ∧
  (∀ c, ∃ extra, Send (client_at σ' c) = Send (client_at σ c) ++ extra ∧
                 (List.length extra ≤ 1)%nat) ∧
  (∀ c, c ≠ client → ¬ member σ r c →
        Send (client_at σ' c) = Send (client_at σ c)) ∧
  (∀ r', r' ≠ r → rooms σ' !! r' = rooms σ !! r') ∧
  (∀ r' c, c ≠ client → member σ' r' c ↔ member σ r' c).
Proof.
  intros σ' r. destruct (decide (msg_RoomID msg = "")) as [E|E].
  - assert (Hdrop := handleJoin_dropped client msg σ E). fold σ' in Hdrop.
    assert (Hrooms : rooms σ' = rooms σ) by (by rewrite Hdrop).
    assert (Hat : ∀ c, c ≠ client → client_at σ' c = client_at σ c).
    { intros c Hc. rewrite Hdrop. unfold set_Username, set_ID.
      by rewrite !client_at_store, !(decide_False (P := c = client)). }
    assert (Hsend : ∀ c, Send (client_at σ' c) = Send (client_at σ c)).
    { intros c. rewrite Hdrop.
      apply (setters_only_fields client (msg_From msg) (msg_Username msg) σ c). }
    repeat split; try (by rewrite Hat).
    + intros c. exists []. rewrite app_nil_r. split; [apply Hsend|simpl; lia].
    + intros c _ _. apply Hsend.
    + intros r' _. by rewrite Hrooms.
    + unfold member. by rewrite Hrooms.
    + unfold member. by rewrite Hrooms.
  - destruct (handleJoin_spec client msg σ E) as (Hrooms & Hid & Hs).
    fold σ' in Hrooms, Hid, Hs.
    assert (Hr : r = msg_RoomID msg).
    { unfold r. destruct (Hid client) as (_ & -> & _). by rewrite decide_True. }
    rewrite Hr.
    assert (Hmem : ∀ r' c, c ≠ client → member σ' r' c ↔ member σ r' c).
    { intros r' c Hc. destruct (decide (r' = msg_RoomID msg)) as [->|Hr'].
      - rewrite (member_entered σ). unfold member. rewrite Hrooms, lookup_insert_eq.
        split.
        + intros (room & [= <-] & Hin). simpl in Hin.
          apply elem_of_union in Hin as [Hin%elem_of_singleton|Hin]; done.
        + intros Hin. eexists. split; [done|]. simpl.
          apply elem_of_union. by right.
      - unfold member. by rewrite Hrooms, lookup_insert_ne. }
    repeat split.
    + destruct (Hid c) as (-> & _). by rewrite decide_False.
    + destruct (Hid c) as (_ & -> & _). by rewrite decide_False.
    + destruct (Hid c) as (_ & _ & ->). by rewrite decide_False.
    + intros c. eexists. split; [apply Hs|].
      repeat destruct (decide _); simpl; lia.
    + intros c Hc Hno. rewrite Hs, decide_False by done.
      rewrite decide_False; [apply app_nil_r|].
      intros Hin. by apply Hno, member_entered.
    + intros r' Hr'. by rewrite Hrooms, lookup_insert_ne.
    + by apply Hmem.
    + by apply Hmem.
Qed.

(** What [handleSignaling] does to queues, fields, registry and membership. *)
Lemma handleSignaling_summary client msg σ :
  let σ' := handleSignaling client msg σ in
  let r := RoomID (client_at σ' client) in
  (∀ c, ID (client_at σ' c) = ID (client_at σ c) ∧
        RoomID (client_at σ' c) = RoomID (client_at σ c) ∧
        Username (client_at σ' c) = Username (client_at σ c)) ∧
  (∀ c, ∃ extra, Send (client_at σ' c) = Send (client_at σ c) ++ extra ∧
                 (List.length extra ≤ 1)%nat) ∧
  (∀ c, ¬ member σ r c → Send (client_at σ' c) = Send (client_at σ c)) ∧
  rooms σ' = rooms σ.
Proof.
  intros σ' r.
  destruct (handleSignaling_only_queues client msg σ) as [Hrooms Hid].
  fold σ' in Hrooms, Hid.
  assert (Hr : r = RoomID (client_at σ client)).
  { unfold r. by destruct (Hid client) as (_ & -> & _). }
  split; [exact Hid|]. split; [|split; [|exact Hrooms]].
  - intros c. destruct (handleSignaling_cases client msg σ)
      as [E | (room & t & _ & _ & _ & _ & E)]; fold σ' in E; rewrite E.
    + exists []. rewrite app_nil_r. split; [done|simpl; lia].
    + eexists. split; [apply enqueue_Send|]. destruct (decide _); simpl; lia.
  - intros c Hno. destruct (handleSignaling_cases client msg σ)
      as [E | (room & t & _ & Hroom & Hin & _ & E)]; fold σ' in E; rewrite E.
    + done.
    + rewrite enqueue_Send, decide_False; [apply app_nil_r|].
      intros ->. apply Hno. rewrite Hr. by exists room.
Qed.

(** What [removeClientFromRoom] does to queues, fields, registry and
    membership. *)
Lemma removeClientFromRoom_summary client σ :
  let σ' := removeClientFromRoom client σ in
  let r := RoomID (client_at σ' client) in
  (∀ c, ID (client_at σ' c) = ID (client_at σ c) ∧
        RoomID (client_at σ' c) = RoomID (client_at σ c) ∧
        Username (client_at σ' c) = Username (client_at σ c)) ∧
  (∀ c, ∃ extra, Send (client_at σ' c) = Send (client_at σ c) ++ extra ∧
                 (List.length extra ≤ 1)%nat) ∧
  (∀ c, ¬ member σ r c → Send (client_at σ' c) = Send (client_at σ c)) ∧
  (∀ r', r' ≠ r → rooms σ' !! r' = rooms σ !! r') ∧
  (∀ r' c, c ≠ client → member σ' r' c ↔ member σ r' c).
Proof.
  intros σ' r.
  assert (Hsame : σ' = σ →
    (∀ c, ID (client_at σ' c) = ID (client_at σ c) ∧
          RoomID (client_at σ' c) = RoomID (client_at σ c) ∧
          Username (client_at σ' c) = Username (client_at σ c)) ∧
    (∀ c, ∃ extra, Send (client_at σ' c) = Send (client_at σ c) ++ extra ∧
                   (List.length extra ≤ 1)%nat) ∧
    (∀ c, ¬ member σ r c → Send (client_at σ' c) = Send (client_at σ c)) ∧
    (∀ r', r' ≠ r → rooms σ' !! r' = rooms σ !! r') ∧
    (∀ r' c, c ≠ client → member σ' r' c ↔ member σ r' c)).
  { intros E. rewrite E. repeat split; try done.
    intros c. exists []. rewrite app_nil_r. split; [done|simpl; lia]. }
  destruct (decide (RoomID (client_at σ client) = "")) as [E|E].
  { apply Hsame. unfold σ', removeClientFromRoom. by rewrite decide_True. }
  destruct (rooms σ !! RoomID (client_at σ client)) as [room|] eqn:Hroom.
  2:{ apply Hsame. unfold σ', removeClientFromRoom.
      by rewrite decide_False, Hroom. }
  clear Hsame.
  destruct (removeClientFromRoom_spec client σ room E Hroom) as (Hrooms & Hid & Hs).
  fold σ' in Hrooms, Hid, Hs.
  assert (Hr : r = RoomID (client_at σ client)).
  { unfold r. by destruct (Hid client) as (_ & -> & _). }
  rewrite Hr.
  assert (Hframe : ∀ r', r' ≠ RoomID (client_at σ client) →
                         rooms σ' !! r' = rooms σ !! r').
  { intros r' Hr'. rewrite Hrooms. destruct (decide _).
    - by rewrite lookup_delete_ne.
    - by rewrite lookup_insert_ne. }
  assert (Hmem : ∀ r' c, c ≠ client → member σ' r' c ↔ member σ r' c).
  { intros r' c Hc.
    destruct (decide (r' = RoomID (client_at σ client))) as [->|Hr'].
    - unfold member. rewrite Hroom, Hrooms.
      destruct (decide (Clients room ∖ {[client]} = ∅)) as [Hz|Hnz].
      + rewrite lookup_delete_eq. split; [by intros (? & [=] & _)|].
        intros (? & [= <-] & Hin). exfalso.
        apply (not_elem_of_empty (C := gset addr) c). rewrite <- Hz.
        apply elem_of_difference. split; [done|]. by apply not_elem_of_singleton.
      + rewrite lookup_insert_eq. split.
        * intros (? & [= <-] & Hin). simpl in Hin.
          apply elem_of_difference in Hin as [Hin _]. by exists room.
        * intros (? & [= <-] & Hin). eexists. split; [done|]. simpl.
          apply elem_of_difference. split; [done|]. by apply not_elem_of_singleton.
    - unfold member. by rewrite Hframe. }
  split; [exact Hid|]. split; [|split; [|split; [exact Hframe|exact Hmem]]].
  - intros c. eexists. split; [apply Hs|].
    destruct (decide (c ∈ Clients room ∧ c ≠ client)); simpl; lia.
  - intros c Hno. rewrite Hs, decide_False; [apply app_nil_r|].
    intros [Hin _]. apply Hno. by exists room.
Qed.

(** What any envelope of [client] does. *)
Lemma dispatch_summary client msg σ :
  let σ' := handleWebSocket_dispatch client msg σ in
  let r := RoomID (client_at σ' client) in
  (∀ c, c ≠ client → ID (client_at σ' c) = ID (client_at σ c) ∧
                      RoomID (client_at σ' c) = RoomID (client_at σ c) ∧
                      Username (client_at σ' c) = Username (client_at σ c)) ∧
  (∀ c, ∃ extra, Send (client_at σ' c) = Send (client_at σ c) ++ extra ∧
                 (List.length extra ≤ 1)%nat) ∧
  (∀ c, c ≠ client → ¬ member σ r c →
        Send (client_at σ' c) = Send (client_at σ c)) ∧
  (∀ r', r' ≠ r → rooms σ' !! r' = rooms σ !! r') ∧
  (∀ r' c, c ≠ client → member σ' r' c ↔ member σ r' c).
Proof.
  unfold handleWebSocket_dispatch, handleLeave.
  destruct (decide (msg_Type msg = "join")); [apply handleJoin_summary|].
  assert (Hsig :
    let σ' := handleSignaling client msg σ in
    let r := RoomID (client_at σ' client) in
    (∀ c, c ≠ client → ID (client_at σ' c) = ID (client_at σ c) ∧
                        RoomID (client_at σ' c) = RoomID (client_at σ c) ∧
                        Username (client_at σ' c) = Username (client_at σ c)) ∧
    (∀ c, ∃ extra, Send (client_at σ' c) = Send (client_at σ c) ++ extra ∧
                   (List.length extra ≤ 1)%nat) ∧
    (∀ c, c ≠ client → ¬ member σ r c →
          Send (client_at σ' c) = Send (client_at σ c)) ∧
    (∀ r', r' ≠ r → rooms σ' !! r' = rooms σ !! r') ∧
    (∀ r' c, c ≠ client → member σ' r' c ↔ member σ r' c)).
  { destruct (handleSignaling_summary client msg σ) as (H1 & H2 & H3 & H4).
    cbv zeta. repeat split; try (by apply H1); try (by apply H2).
    - intros c _. apply H3.
    - intros r' _. by rewrite H4.
    - unfold member. by rewrite H4.
    - unfold member. by rewrite H4. }
  destruct (decide (msg_Type msg = "offer")); [exact Hsig|].
  destruct (decide (msg_Type msg = "answer")); [exact Hsig|].
  destruct (decide (msg_Type msg = "ice-candidate")); [exact Hsig|].
  clear Hsig. destruct (decide (msg_Type msg = "leave")).
  - destruct (removeClientFromRoom_summary client σ) as (H1 & H2 & H3 & H4 & H5).
    cbv zeta. repeat split; try (by apply H1); try (by apply H2);
      try (by apply H5).
    + intros c _. apply H3.
    + apply H4.
  - cbv zeta. repeat split; try done.
    intros c. exists []. rewrite app_nil_r. split; [done|simpl; lia].
Qed.

(** What the read error of [client] does. *)
Lemma readError_summary client σ :
  let σ' := handleWebSocket_readError client σ in
  let r := RoomID (client_at σ' client) in
  (∀ c, ID (client_at σ' c) = ID (client_at σ c) ∧
        RoomID (client_at σ' c) = RoomID (client_at σ c) ∧
        Username (client_at σ' c) = Username (client_at σ c)) ∧
  (∀ c, ∃ extra, Send (client_at σ' c) = Send (client_at σ c) ++ extra ∧
                 (List.length extra ≤ 1)%nat) ∧
  (∀ c, ¬ member σ r c → Send (client_at σ' c) = Send (client_at σ c)) ∧
  (∀ r', r' ≠ r → rooms σ' !! r' = rooms σ !! r') ∧
  (∀ r' c, c ≠ client → member σ' r' c ↔ member σ r' c).
Proof. rewrite readError_removes. apply removeClientFromRoom_summary. Qed.

End Handlers.
End Part000Steps.

(** * What one operation can touch (main.go) *)
Module MainGoSteps.
Import MainGo MainGoFacts MainGoFrames.

Section Handlers.
Context {R : GoRange}.

(** The shape of what [handleSignaling] does. *)
Lemma mg_handleSignaling_cases client msg σ :
  handleSignaling client msg σ = σ ∨
  ∃ room target,
    msg_To msg ≠ "" ∧
    rooms σ !! RoomID (client_at σ client) = Some room ∧
    Clients room !! msg_To msg = Some target ∧
    handleSignaling client msg σ =
    sendMessage target (with_From (ID (client_at σ client)) msg) σ.
Proof.
  unfold handleSignaling. destruct (decide _) as [|Hto]; [by left|].
  destruct (rooms σ !! _) as [room|] eqn:Hroom; [|by left].
  destruct (Clients room !! msg_To msg) as [t|] eqn:Hfind; [|by left].
  right. by exists room, t.
Qed.

(** What [handleJoin] does to connections, fields and registry. *)
Lemma mg_handleJoin_summary client msg σ :
  let σ' := handleJoin client msg σ in
  let r := RoomID (client_at σ' client) in
  (∀ c, c ≠ client → ID (client_at σ' c) = ID (client_at σ c) ∧
                      RoomID (client_at σ' c) = RoomID (client_at σ c) ∧
                      Username (client_at σ' c) = Username (client_at σ c)) ∧
  (∀ c, ∃ extra, Conn (client_at σ' c) = Conn (client_at σ c) ++ extra) ∧
  (∀ c, c ≠ client → ¬ member σ r c →
        Conn (client_at σ' c) = Conn (client_at σ c)) ∧
  (∀ r', r' ≠ r → rooms σ' !! r' = rooms σ !! r').
Proof.
  intros σ' r.
  destruct (mg_handleJoin_spec client msg σ) as (Hrooms & Hid & Hs).
  fold σ' in Hrooms, Hid, Hs.
  assert (Hr : r = msg_RoomID msg).
  { unfold r. destruct (Hid client) as (_ & -> & _). by rewrite decide_True. }
  rewrite Hr. repeat split.
  - destruct (Hid c) as (-> & _). by rewrite decide_False.
  - destruct (Hid c) as (_ & -> & _). by rewrite decide_False.
  - destruct (Hid c) as (_ & _ & ->). by rewrite decide_False.
  - intros c. eexists. apply Hs.
  - intros c Hc Hno. rewrite Hs, decide_False by done. cbn [app].
    rewrite mg_copies_none; [apply app_nil_r|].
    intros k. rewrite lookup_insert.
    destruct (decide (msg_From msg = k)) as [<-|Hk]; [by intros [= ->]|].
    intros Hk'. exfalso. apply Hno, mg_member_entered. by exists k.
  - intros r' Hr'. by rewrite Hrooms, lookup_insert_ne.
Qed.

(** What [handleSignaling] does to connections, fields and registry. *)
Lemma mg_handleSignaling_summary client msg σ :
  let σ' := handleSignaling client msg σ in
  let r := RoomID (client_at σ' client) in
  (∀ c, ID (client_at σ' c) = ID (client_at σ c) ∧
        RoomID (client_at σ' c) = RoomID (client_at σ c) ∧
        Username (client_at σ' c) = Username (client_at σ c)) ∧
  (∀ c, ∃ extra, Conn (client_at σ' c) = Conn (client_at σ c) ++ extra) ∧
  (∀ c, ¬ member σ r c → Conn (client_at σ' c) = Conn (client_at σ c)) ∧
  rooms σ' = rooms σ.
Proof.
  intros σ' r.
  destruct (mg_handleSignaling_only_conns client msg σ) as [Hrooms Hid].
  fold σ' in Hrooms, Hid.
  assert (Hr : r = RoomID (client_at σ client)).
  { unfold r. by destruct (Hid client) as (_ & -> & _). }
  split; [exact Hid|]. split; [|split; [|exact Hrooms]].
  - intros c. destruct (mg_handleSignaling_cases client msg σ)
      as [E | (room & t & _ & _ & _ & E)]; fold σ' in E; rewrite E.
    + exists []. by rewrite app_nil_r.
    + eexists. apply mg_sendMessage_Conn.
  - intros c Hno. destruct (mg_handleSignaling_cases client msg σ)
      as [E | (room & t & _ & Hroom & Hin & E)]; fold σ' in E; rewrite E.
    + done.
    + rewrite mg_sendMessage_Conn, decide_False; [apply app_nil_r|].
      intros ->. apply Hno. rewrite Hr. by exists room, (msg_To msg).
Qed.

(** What [removeClientFromRoom] does to connections, fields and
    registry. *)
Lemma mg_removeClientFromRoom_summary client σ :
  let σ' := removeClientFromRoom client σ in
  let r := RoomID (client_at σ' client) in
  (∀ c, ID (client_at σ' c) = ID (client_at σ c) ∧
        RoomID (client_at σ' c) = RoomID (client_at σ c) ∧
        Username (client_at σ' c) = Username (client_at σ c)) ∧
  (∀ c, ∃ extra, Conn (client_at σ' c) = Conn (client_at σ c) ++ extra) ∧
  (∀ c, ¬ member σ r c → Conn (client_at σ' c) = Conn (client_at σ c)) ∧
  (∀ r', r' ≠ r → rooms σ' !! r' = rooms σ !! r').
Proof.
  intros σ' r.
  assert (Hsame : σ' = σ →
    (∀ c, ID (client_at σ' c) = ID (client_at σ c) ∧
          RoomID (client_at σ' c) = RoomID (client_at σ c) ∧
          Username (client_at σ' c) = Username (client_at σ c)) ∧
    (∀ c, ∃ extra, Conn (client_at σ' c) = Conn (client_at σ c) ++ extra) ∧
    (∀ c, ¬ member σ r c → Conn (client_at σ' c) = Conn (client_at σ c)) ∧
    (∀ r', r' ≠ r → rooms σ' !! r' = rooms σ !! r')).
  { intros E. rewrite E. repeat split; try done.
    intros c. exists []. by rewrite app_nil_r. }
  destruct (decide (RoomID (client_at σ client) = "")) as [E|E].
  { apply Hsame. unfold σ', removeClientFromRoom. by rewrite decide_True. }
  destruct (rooms σ !! RoomID (client_at σ client)) as [room|] eqn:Hroom.
  2:{ apply Hsame. unfold σ', removeClientFromRoom.
      by rewrite decide_False, Hroom. }
  clear Hsame.
  destruct (mg_removeClientFromRoom_spec client σ room E Hroom)
    as (Hrooms & Hid & Hs).
  fold σ' in Hrooms, Hid, Hs.
  assert (Hr : r = RoomID (client_at σ client)).
  { unfold r. by destruct (Hid client) as (_ & -> & _). }
  rewrite Hr.
  split; [exact Hid|]. split; [|split].
  - intros c. eexists. apply Hs.
  - intros c Hno. rewrite Hs, mg_copies_none; [apply app_nil_r|].
    intros k. rewrite lookup_delete.
    destruct (decide (ID (client_at σ client) = k)); [done|].
    intros Hk. exfalso. apply Hno. by exists room, k.
  - intros r' Hr'. rewrite Hrooms. destruct (decide _).
    + by rewrite lookup_delete_ne.
    + by rewrite lookup_insert_ne.
Qed.

(** What any envelope of [client] does. *)
Lemma mg_dispatch_summary client msg σ :
  let σ' := handleWebSocket_dispatch client msg σ in
  let r := RoomID (client_at σ' client) in
  (∀ c, c ≠ client → ID (client_at σ' c) = ID (client_at σ c) ∧
                      RoomID (client_at σ' c) = RoomID (client_at σ c) ∧
                      Username (client_at σ' c) = Username (client_at σ c)) ∧
  (∀ c, ∃ extra, Conn (client_at σ' c) = Conn (client_at σ c) ++ extra) ∧
  (∀ c, c ≠ client → ¬ member σ r c →
        Conn (client_at σ' c) = Conn (client_at σ c)) ∧
  (∀ r', r' ≠ r → rooms σ' !! r' = rooms σ !! r').
Proof.
  unfold handleWebSocket_dispatch, handleLeave.
  destruct (decide (msg_Type msg = "join")); [apply mg_handleJoin_summary|].
  assert (Hsig :
    let σ' := handleSignaling client msg σ in
    let r := RoomID (client_at σ' client) in
    (∀ c, c ≠ client → ID (client_at σ' c) = ID (client_at σ c) ∧
                        RoomID (client_at σ' c) = RoomID (client_at σ c) ∧
                        Username (client_at σ' c) = Username (client_at σ c)) ∧
    (∀ c, ∃ extra, Conn (client_at σ' c) = Conn (client_at σ c) ++ extra) ∧
    (∀ c, c ≠ client → ¬ member σ r c →
          Conn (client_at σ' c) = Conn (client_at σ c)) ∧
    (∀ r', r' ≠ r → rooms σ' !! r' = rooms σ !! r')).
  { destruct (mg_handleSignaling_summary client msg σ) as (H1 & H2 & H3 & H4).
    cbv zeta. repeat split; try (by apply H1); try (by apply H2).
    - intros c _. apply H3.
    - intros r' _. by rewrite H4. }
  destruct (decide (msg_Type msg = "offer")); [exact Hsig|].
  destruct (decide (msg_Type msg = "answer")); [exact Hsig|].
  destruct (decide (msg_Type msg = "ice-candidate")); [exact Hsig|].
  clear Hsig. destruct (decide (msg_Type msg = "leave")).
  - destruct (mg_removeClientFromRoom_summary client σ) as (H1 & H2 & H3 & H4).
    cbv zeta. repeat split; try (by apply H1); try (by apply H2).
    + intros c _. apply H3.
    + apply H4.
  - cbv zeta. repeat split; try done.
    intros c. exists []. by rewrite app_nil_r.
Qed.

(** What the read error of [client] does. *)
Lemma mg_readError_summary client σ :
  let σ' := handleWebSocket_readError client σ in
  let r := RoomID (client_at σ' client) in
  (∀ c, ID (client_at σ' c) = ID (client_at σ c) ∧
        RoomID (client_at σ' c) = RoomID (client_at σ c) ∧
        Username (client_at σ' c) = Username (client_at σ c)) ∧
  (∀ c, ∃ extra, Conn (client_at σ' c) = Conn (client_at σ c) ++ extra) ∧
  (∀ c, ¬ member σ r c → Conn (client_at σ' c) = Conn (client_at σ c)) ∧
  (∀ r', r' ≠ r → rooms σ' !! r' = rooms σ !! r').
Proof. rewrite mg_readError_removes. apply mg_removeClientFromRoom_summary. Qed.

End Handlers.
End MainGoSteps.

(** * Further properties of the router *)

(** ** What an operation of one session does to the others *)

(** X1.  Rooms are isolated.  Whatever envelope a session sends, and
    when its read fails, nothing is sent to a session that is neither
    the acting session nor a member of the room the acting session's
    [RoomID] names afterwards. *)
Theorem X1_room_isolation :
  (∀ (R : GoRange) client msg σ c,
     c ≠ client →
     let σ' := Part000.handleWebSocket_dispatch client msg σ in
     ¬ Part000.member σ (Part000.RoomID (Part000.client_at σ' client)) c →
     Part000.Send (Part000.client_at σ' c) = Part000.Send (Part000.client_at σ c)) ∧
  (∀ (R : GoRange) client σ c,
     c ≠ client →
     let σ' := Part000.handleWebSocket_readError client σ in
     ¬ Part000.member σ (Part000.RoomID (Part000.client_at σ' client)) c →
     Part000.Send (Part000.client_at σ' c) = Part000.Send (Part000.client_at σ c)) ∧
  (∀ (R : GoRange) client msg σ c,
     c ≠ client →
     let σ' := MainGo.handleWebSocket_dispatch client msg σ in
     ¬ MainGo.member σ (MainGo.RoomID (MainGo.client_at σ' client)) c →
     MainGo.Conn (MainGo.client_at σ' c) = MainGo.Conn (MainGo.client_at σ c)) ∧
  (∀ (R : GoRange) client σ c,
     c ≠ client →
     let σ' := MainGo.handleWebSocket_readError client σ in
     ¬ MainGo.member σ (MainGo.RoomID (MainGo.client_at σ' client)) c →
     MainGo.Conn (MainGo.client_at σ' c) = MainGo.Conn (MainGo.client_at σ c)).
Proof.
  repeat split.
  - intros R client msg σ c Hc σ'.
    by apply (Part000Steps.dispatch_summary client msg σ).
  - intros R client σ c _ σ'.
    by apply (Part000Steps.readError_summary client σ).
  - intros R client msg σ c Hc σ'.
    by apply (MainGoSteps.mg_dispatch_summary client msg σ).
  - intros R client σ c _ σ'.
    by apply (MainGoSteps.mg_readError_summary client σ).
Qed.

(** Sessions 1 and 2 are in room R and session 3 in room S: when
    session 1 leaves, session 3 is sent nothing. *)
Lemma X1_room_isolation_witness :
  (let σ := Scenarios.p_run Scenarios.two_rooms in
   let σ' := Part000.handleWebSocket_dispatch 1 Scenarios.leave_msg σ in
   Part000.Send (Part000.client_at σ' 3) = Part000.Send (Part000.client_at σ 3)) ∧
  (let σ := Scenarios.m_run Scenarios.two_rooms in
   let σ' := MainGo.handleWebSocket_dispatch 1 Scenarios.leave_msg σ in
   MainGo.Conn (MainGo.client_at σ' 3) = MainGo.Conn (MainGo.client_at σ 3)).
Proof.
  split; intros σ σ'.
  - assert (N : 3 ≠ 1) by lia.
    apply (proj1 X1_room_isolation canonical_range 1 Scenarios.leave_msg σ 3 N).
    intros (room & Hroom & Hin).
    assert (E : Part000.rooms σ !! Part000.RoomID (Part000.client_at
                  (Part000.handleWebSocket_dispatch 1 Scenarios.leave_msg σ) 1)
                = Some (Part000.mkRoom "R" {[1; 2]}))
      by (vm_compute; reflexivity).
    rewrite E in Hroom. injection Hroom as <-. simpl in Hin.
    apply elem_of_union in Hin as [Hin%elem_of_singleton|Hin%elem_of_singleton];
      lia.
  - assert (N : 3 ≠ 1) by lia.
    apply (proj1 (proj2 (proj2 X1_room_isolation)) canonical_range 1
             Scenarios.leave_msg σ 3 N).
    intros (room & k & Hroom & Hin).
    assert (E : MainGo.rooms σ !! MainGo.RoomID (MainGo.client_at
                  (MainGo.handleWebSocket_dispatch 1 Scenarios.leave_msg σ) 1)
                = Some (MainGo.mkRoom "R" {["a" := 1; "b" := 2]}))
      by (vm_compute; reflexivity).
    rewrite E in Hroom. injection Hroom as <-. simpl in Hin.
    apply lookup_insert_Some in Hin as [[_ Hin]|[_ Hin]]; [lia|].
    apply lookup_singleton_Some in Hin as [_ Hin]. lia.
Defined.

(** X2.  A session's [ID], [RoomID] and [Username] are written by its
    own join envelopes only: no envelope and no read error of another
    session changes them, and neither do the session's own signaling
    and leave envelopes nor its read error.  In particular a leave does
    not clear the [RoomID]. *)
Theorem X2_session_fields_written_by_own_join_only :
  (∀ (R : GoRange) client msg σ c,
     c ≠ client ∨ msg_Type msg ≠ "join" →
     let σ' := Part000.handleWebSocket_dispatch client msg σ in
     Part000.ID (Part000.client_at σ' c) = Part000.ID (Part000.client_at σ c) ∧
     Part000.RoomID (Part000.client_at σ' c) =
       Part000.RoomID (Part000.client_at σ c) ∧
     Part000.Username (Part000.client_at σ' c) =
       Part000.Username (Part000.client_at σ c)) ∧
  (∀ (R : GoRange) client σ c,
     let σ' := Part000.handleWebSocket_readError client σ in
     Part000.ID (Part000.client_at σ' c) = Part000.ID (Part000.client_at σ c) ∧
     Part000.RoomID (Part000.client_at σ' c) =
       Part000.RoomID (Part000.client_at σ c) ∧
     Part000.Username (Part000.client_at σ' c) =
       Part000.Username (Part000.client_at σ c)) ∧
  (∀ (R : GoRange) client msg σ c,
     c ≠ client ∨ msg_Type msg ≠ "join" →
     let σ' := MainGo.handleWebSocket_dispatch client msg σ in
     MainGo.ID (MainGo.client_at σ' c) = MainGo.ID (MainGo.client_at σ c) ∧
     MainGo.RoomID (MainGo.client_at σ' c) =
       MainGo.RoomID (MainGo.client_at σ c) ∧
     MainGo.Username (MainGo.client_at σ' c) =
       MainGo.Username (MainGo.client_at σ c)) ∧
  (∀ (R : GoRange) client σ c,
     let σ' := MainGo.handleWebSocket_readError client σ in
     MainGo.ID (MainGo.client_at σ' c) = MainGo.ID (MainGo.client_at σ c) ∧
     MainGo.RoomID (MainGo.client_at σ' c) =
       MainGo.RoomID (MainGo.client_at σ c) ∧
     MainGo.Username (MainGo.client_at σ' c) =
       MainGo.Username (MainGo.client_at σ c)).
Proof.
  split; [|split; [|split]].
  - intros R client msg σ c [Hc|Hty] σ'.
    + by apply (Part000Steps.dispatch_summary client msg σ).
    + subst σ'. unfold Part000.handleWebSocket_dispatch, Part000.handleLeave.
      rewrite (decide_False (P := msg_Type msg = "join")) by done.
      repeat destruct (decide _);
        try apply (Part000Steps.handleSignaling_summary client msg σ);
        try apply (Part000Steps.removeClientFromRoom_summary client σ); done.
  - intros R client σ c σ'. apply (Part000Steps.readError_summary client σ).
  - intros R client msg σ c [Hc|Hty] σ'.
    + by apply (MainGoSteps.mg_dispatch_summary client msg σ).
    + subst σ'. unfold MainGo.handleWebSocket_dispatch, MainGo.handleLeave.
      rewrite (decide_False (P := msg_Type msg = "join")) by done.
      repeat destruct (decide _);
        try apply (MainGoSteps.mg_handleSignaling_summary client msg σ);
        try apply (MainGoSteps.mg_removeClientFromRoom_summary client σ); done.
  - intros R client σ c σ'. apply (MainGoSteps.mg_readError_summary client σ).
Qed.

(** Session 1 leaves room R: its [RoomID] is "R" as before. *)
Lemma X2_session_fields_written_by_own_join_only_witness :
  (let σ := Scenarios.p_run Scenarios.two_in_R in
   let σ' := Part000.handleWebSocket_dispatch 1 Scenarios.leave_msg σ in
   Part000.RoomID (Part000.client_at σ' 1) = "R") ∧
  (let σ := Scenarios.m_run Scenarios.two_in_R in
   let σ' := MainGo.handleWebSocket_dispatch 1 Scenarios.leave_msg σ in
   MainGo.RoomID (MainGo.client_at σ' 1) = "R").
Proof.
  split; intros σ σ'.
  - assert (Hty : 1 ≠ 1 ∨ msg_Type Scenarios.leave_msg ≠ "join")
      by (right; vm_compute; discriminate).
    destruct (proj1 X2_session_fields_written_by_own_join_only canonical_range
                1 Scenarios.leave_msg σ 1 Hty) as (_ & H & _).
    fold σ' in H. rewrite H. vm_compute. reflexivity.
  - assert (Hty : 1 ≠ 1 ∨ msg_Type Scenarios.leave_msg ≠ "join")
      by (right; vm_compute; discriminate).
    destruct (proj1 (proj2 (proj2 X2_session_fields_written_by_own_join_only))
                canonical_range 1 Scenarios.leave_msg σ 1 Hty) as (_ & H & _).
    fold σ' in H. rewrite H. vm_compute. reflexivity.
Defined.

(** X3.  Queues only grow at the back: what was queued for a session
    (in main.go: written to its connection) before an operation is a
    prefix of what is queued afterwards, and in part_000 one operation
    queues at most one envelope for any one session. *)
Theorem X3_queues_grow_at_the_back :
  (∀ (R : GoRange) client msg σ c,
     let σ' := Part000.handleWebSocket_dispatch client msg σ in
     ∃ extra,
       Part000.Send (Part000.client_at σ' c) =
       Part000.Send (Part000.client_at σ c) ++ extra ∧
       (List.length extra ≤ 1)%nat) ∧
  (∀ (R : GoRange) client σ c,
     let σ' := Part000.handleWebSocket_readError client σ in
     ∃ extra,
       Part000.Send (Part000.client_at σ' c) =
       Part000.Send (Part000.client_at σ c) ++ extra ∧
       (List.length extra ≤ 1)%nat) ∧
  (∀ (R : GoRange) client msg σ c,
     let σ' := MainGo.handleWebSocket_dispatch client msg σ in
     ∃ extra,
       MainGo.Conn (MainGo.client_at σ' c) =
       MainGo.Conn (MainGo.client_at σ c) ++ extra) ∧
  (∀ (R : GoRange) client σ c,
     let σ' := MainGo.handleWebSocket_readError client σ in
     ∃ extra,
       MainGo.Conn (MainGo.client_at σ' c) =
       MainGo.Conn (MainGo.client_at σ c) ++ extra).
Proof.
  repeat split.
  - intros R client msg σ c. apply (Part000Steps.dispatch_summary client msg σ).
  - intros R client σ c. apply (Part000Steps.readError_summary client σ).
  - intros R client msg σ c. apply (MainGoSteps.mg_dispatch_summary client msg σ).
  - intros R client σ c. apply (MainGoSteps.mg_readError_summary client σ).
Qed.

(** X4.  An operation of a session changes no registry entry other than
    the one its [RoomID] names afterwards.  So the read error of a
    session that is a member of a room its [RoomID] does not name, as
    after a join into a second room, leaves it a member of that room. *)
Theorem X4_only_the_named_room_changes :
  (∀ (R : GoRange) client msg σ r,
     let σ' := Part000.handleWebSocket_dispatch client msg σ in
     r ≠ Part000.RoomID (Part000.client_at σ' client) →
     Part000.rooms σ' !! r = Part000.rooms σ !! r) ∧
  (∀ (R : GoRange) client σ r,
     r ≠ Part000.RoomID (Part000.client_at σ client) →
     Part000.rooms (Part000.handleWebSocket_readError client σ) !! r =
       Part000.rooms σ !! r ∧
     (Part000.member σ r client →
      Part000.member (Part000.handleWebSocket_readError client σ) r client)) ∧
  (∀ (R : GoRange) client msg σ r,
     let σ' := MainGo.handleWebSocket_dispatch client msg σ in
     r ≠ MainGo.RoomID (MainGo.client_at σ' client) →
     MainGo.rooms σ' !! r = MainGo.rooms σ !! r) ∧
  (∀ (R : GoRange) client σ r,
     r ≠ MainGo.RoomID (MainGo.client_at σ client) →
     MainGo.rooms (MainGo.handleWebSocket_readError client σ) !! r =
       MainGo.rooms σ !! r ∧
     (MainGo.member σ r client →
      MainGo.member (MainGo.handleWebSocket_readError client σ) r client)).
Proof.
  split; [|split; [|split]].
  - intros R client msg σ r σ'.
    apply (Part000Steps.dispatch_summary client msg σ).
  - intros R client σ r Hr.
    destruct (Part000Steps.readError_summary client σ) as (Hid & _ & _ & Hfr & _).
    assert (E : Part000.rooms (Part000.handleWebSocket_readError client σ) !! r
                = Part000.rooms σ !! r).
    { apply Hfr. by destruct (Hid client) as (_ & -> & _). }
    split; [exact E|]. unfold Part000.member. by rewrite E.
  - intros R client msg σ r σ'.
    apply (MainGoSteps.mg_dispatch_summary client msg σ).
  - intros R client σ r Hr.
    destruct (MainGoSteps.mg_readError_summary client σ) as (Hid & _ & _ & Hfr).
    assert (E : MainGo.rooms (MainGo.handleWebSocket_readError client σ) !! r
                = MainGo.rooms σ !! r).
    { apply Hfr. by destruct (Hid client) as (_ & -> & _). }
    split; [exact E|]. unfold MainGo.member. by rewrite E.
Qed.

(** Session 1 joined room R and then room S; after its read error it is
    still a member of R. *)
Lemma X4_only_the_named_room_changes_witness :
  (let σ := Scenarios.p_run Scenarios.moved_on in
   Part000.member (Part000.handleWebSocket_readError 1 σ) "R" 1) ∧
  (let σ := Scenarios.m_run Scenarios.moved_on in
   MainGo.member (MainGo.handleWebSocket_readError 1 σ) "R" 1).
Proof.
  split; intros σ.
  - assert (Hr : "R" ≠ Part000.RoomID (Part000.client_at σ 1))
      by (vm_compute; discriminate).
    apply (proj1 (proj2 X4_only_the_named_room_changes) canonical_range 1 σ "R" Hr).
    exists (Part000.entered σ "R"). split; vm_compute; reflexivity.
  - assert (Hr : "R" ≠ MainGo.RoomID (MainGo.client_at σ 1))
      by (vm_compute; discriminate).
    apply (proj2 (proj2 (proj2 X4_only_the_named_room_changes))
             canonical_range 1 σ "R" Hr).
    exists (MainGo.entered σ "R"), "a". split; vm_compute; reflexivity.
Defined.

(** X5.  In part_000 a session's envelopes and its read error change no
    membership but its own: every other session is a member of exactly
    the rooms it was a member of. *)
Theorem X5_memberships_of_others_untouched :
  (∀ (R : GoRange) client msg σ r c,
     c ≠ client →
     Part000.member (Part000.handleWebSocket_dispatch client msg σ) r c ↔
     Part000.member σ r c) ∧
  (∀ (R : GoRange) client σ r c,
     c ≠ client →
     Part000.member (Part000.handleWebSocket_readError client σ) r c ↔
     Part000.member σ r c).
Proof.
  split.
  - intros R client msg σ r c Hc.
    by apply (Part000Steps.dispatch_summary client msg σ).
  - intros R client σ r c Hc.
    by apply (Part000Steps.readError_summary client σ).
Qed.

(** Session 1 leaves room R: session 2 is a member of R as before. *)
Lemma X5_memberships_of_others_untouched_witness :
  let σ := Scenarios.p_run Scenarios.two_in_R in
  Part000.member (Part000.handleWebSocket_dispatch 1 Scenarios.leave_msg σ) "R" 2.
Proof.
  intros σ. assert (N : 2 ≠ 1) by lia.
  apply (proj1 X5_memberships_of_others_untouched canonical_range 1
           Scenarios.leave_msg σ "R" 2 N).
  exists (Part000.entered σ "R"). split; vm_compute; reflexivity.
Defined.

(** ** Map iteration order *)

Module IterationOrder.








End IterationOrder.


(** ** Signaling *)





(** ** The registry over the life of a connection *)

Module Part000Life.
Import Part000 Part000Facts Part000Frames.

Section Handlers.
Context {R : GoRange}.




End Handlers.
End Part000Life.



(** ** Invariants of the registry *)

Module RegistryInvariants.

(** The registry of part_000 holds every room under its own id, and
    none under the empty id. *)
Lemma p_keyed_step (R : GoRange) client msg σ :
  (∀ r room, Part000.rooms σ !! r = Some room →
             Part000.Room_ID room = r ∧ r ≠ "") →
  ∀ r room, Part000.rooms (Part000.handleWebSocket_dispatch client msg σ) !! r
            = Some room →
            Part000.Room_ID room = r ∧ r ≠ "".
Proof.
  intros Hinv. unfold Part000.handleWebSocket_dispatch, Part000.handleLeave.
  assert (Hrem : ∀ r room,
            Part000.rooms (Part000.removeClientFromRoom client σ) !! r = Some room →
            Part000.Room_ID room = r ∧ r ≠ "").
  { intros r room.
    destruct (decide (Part000.RoomID (Part000.client_at σ client) = "")) as [E|E].
    { unfold Part000.removeClientFromRoom. rewrite decide_True by done. apply Hinv. }
    destruct (Part000.rooms σ !! Part000.RoomID (Part000.client_at σ client))
      as [room0|] eqn:Hroom.
    - destruct (Part000Facts.removeClientFromRoom_spec client σ room0 E Hroom)
        as (-> & _).
      destruct (decide _).
      + rewrite lookup_delete. destruct (decide _); [done|]. apply Hinv.
      + rewrite lookup_insert. destruct (decide _) as [<-|]; [|apply Hinv].
        intros [= <-]. simpl. split; [|done]. by apply (Hinv _ _ Hroom).
    - unfold Part000.removeClientFromRoom.
      rewrite decide_False, Hroom by done. apply Hinv. }
  assert (Hsig : ∀ r room,
            Part000.rooms (Part000.handleSignaling client msg σ) !! r = Some room →
            Part000.Room_ID room = r ∧ r ≠ "").
  { destruct (Part000Frames.handleSignaling_only_queues client msg σ) as [-> _].
    apply Hinv. }
  destruct (decide _).
  - intros r room. destruct (decide (msg_RoomID msg = "")) as [E|E].
    + rewrite Part000Facts.handleJoin_dropped by done. apply Hinv.
    + destruct (Part000Facts.handleJoin_spec client msg σ E) as (-> & _).
      rewrite lookup_insert. destruct (decide _) as [<-|]; [|apply Hinv].
      intros [= <-]. simpl. split; [|done]. unfold Part000.entered.
      destruct (Part000.rooms σ !! msg_RoomID msg) as [room0|] eqn:Hroom; [|done].
      by apply (Hinv _ _ Hroom).
  - repeat destruct (decide _); done.
Qed.

Lemma p_keyed σ :
  Part000.reachable σ →
  ∀ r room, Part000.rooms σ !! r = Some room →
            Part000.Room_ID room = r ∧ r ≠ "".
Proof.
  induction 1 as [|R client msg σ _ IH|R client σ _ IH].
  - intros r room. unfold Part000.initial; simpl. by rewrite lookup_empty.
  - by apply p_keyed_step.
  - intros r room Hroom.
    apply (p_keyed_step R client Scenarios.leave_msg σ IH r room).
    unfold Part000.handleWebSocket_dispatch, Part000.handleLeave.
    rewrite Part000Frames.readError_removes in Hroom. exact Hroom.
Qed.

(** The registry of main.go holds every room under its own id. *)
Lemma mg_keyed_step (R : GoRange) client msg σ :
  (∀ r room, MainGo.rooms σ !! r = Some room → MainGo.Room_ID room = r) →
  ∀ r room, MainGo.rooms (MainGo.handleWebSocket_dispatch client msg σ) !! r
            = Some room →
            MainGo.Room_ID room = r.
Proof.
  intros Hinv. unfold MainGo.handleWebSocket_dispatch, MainGo.handleLeave.
  assert (Hrem : ∀ r room,
            MainGo.rooms (MainGo.removeClientFromRoom client σ) !! r = Some room →
            MainGo.Room_ID room = r).
  { intros r room.
    destruct (decide (MainGo.RoomID (MainGo.client_at σ client) = "")) as [E|E].
    { unfold MainGo.removeClientFromRoom. rewrite decide_True by done. apply Hinv. }
    destruct (MainGo.rooms σ !! MainGo.RoomID (MainGo.client_at σ client))
      as [room0|] eqn:Hroom.
    - destruct (MainGoFacts.mg_removeClientFromRoom_spec client σ room0 E Hroom)
        as (-> & _).
      destruct (decide _).
      + rewrite lookup_delete. destruct (decide _); [done|]. apply Hinv.
      + rewrite lookup_insert. destruct (decide _) as [<-|]; [|apply Hinv].
        intros [= <-]. simpl. by apply (Hinv _ _ Hroom).
    - unfold MainGo.removeClientFromRoom.
      rewrite decide_False, Hroom by done. apply Hinv. }
  assert (Hsig : ∀ r room,
            MainGo.rooms (MainGo.handleSignaling client msg σ) !! r = Some room →
            MainGo.Room_ID room = r).
  { destruct (MainGoFrames.mg_handleSignaling_only_conns client msg σ) as [-> _].
    apply Hinv. }
  destruct (decide _).
  - intros r room.
    destruct (MainGoFacts.mg_handleJoin_spec client msg σ) as (-> & _).
    rewrite lookup_insert. destruct (decide _) as [<-|]; [|apply Hinv].
    intros [= <-]. simpl. unfold MainGo.entered.
    destruct (MainGo.rooms σ !! msg_RoomID msg) as [room0|] eqn:Hroom; [|done].
    by apply (Hinv _ _ Hroom).
  - repeat destruct (decide _); done.
Qed.

Lemma mg_keyed σ :
  MainGo.reachable σ →
  ∀ r room, MainGo.rooms σ !! r = Some room → MainGo.Room_ID room = r.
Proof.
  induction 1 as [|R client msg σ _ IH|R client σ _ IH].
  - intros r room. unfold MainGo.initial; simpl. by rewrite lookup_empty.
  - by apply mg_keyed_step.
  - intros r room Hroom.
    apply (mg_keyed_step R client Scenarios.leave_msg σ IH r room).
    unfold MainGo.handleWebSocket_dispatch, MainGo.handleLeave.
    rewrite MainGoFrames.mg_readError_removes in Hroom. exact Hroom.
Qed.

End RegistryInvariants.

(** X10.  In every store the router can reach, the room registered
    under an id carries that id in its [ID] field. *)
Theorem X10_rooms_registered_under_their_id :
  (∀ σ r room,
     Part000.reachable σ → Part000.rooms σ !! r = Some room →
     Part000.Room_ID room = r) ∧
  (∀ σ r room,
     MainGo.reachable σ → MainGo.rooms σ !! r = Some room →
     MainGo.Room_ID room = r).
Proof.
  split.
  - intros σ r room Hσ Hroom. by apply (RegistryInvariants.p_keyed σ Hσ r room).
  - intros σ r room Hσ Hroom. by apply (RegistryInvariants.mg_keyed σ Hσ r room).
Qed.

(** After sessions 1 and 2 joined room R, the room under "R" is named
    "R". *)
Lemma X10_rooms_registered_under_their_id_witness :
  Part000.Room_ID (Part000.entered (Scenarios.p_run Scenarios.two_in_R) "R") = "R" ∧
  MainGo.Room_ID (MainGo.entered (Scenarios.m_run Scenarios.two_in_R) "R") = "R".
Proof.
  split.
  - apply (proj1 X10_rooms_registered_under_their_id
             (Scenarios.p_run Scenarios.two_in_R)).
    + apply Part000Frames.reachable_foldl. constructor.
    + vm_compute. reflexivity.
  - apply (proj2 X10_rooms_registered_under_their_id
             (Scenarios.m_run Scenarios.two_in_R)).
    + apply MainGoFrames.mg_reachable_foldl. constructor.
    + vm_compute. reflexivity.
Defined.

(** X11.  In part_000 no room is ever registered under the empty id.
    So a session whose [RoomID] is empty, one that has not yet joined a
    room, changes nothing with a signaling or leave envelope or an
    envelope of an unknown type, nor with its read error. *)
Theorem X11_nothing_happens_before_the_first_join :
  ∀ σ, Part000.reachable σ →
    Part000.rooms σ !! "" = None ∧
    ∀ (R : GoRange) client,
      Part000.RoomID (Part000.client_at σ client) = "" →
      (∀ msg, msg_Type msg ≠ "join" →
              Part000.handleWebSocket_dispatch client msg σ = σ) ∧
      Part000.handleWebSocket_readError client σ = σ.
Proof.
  intros σ Hσ.
  assert (Hnone : Part000.rooms σ !! "" = None).
  { destruct (Part000.rooms σ !! "") as [room|] eqn:E; [|done].
    by destruct (RegistryInvariants.p_keyed σ Hσ "" room E). }
  split; [exact Hnone|]. intros R client Hrid.
  assert (Hrem : Part000.removeClientFromRoom client σ = σ).
  { unfold Part000.removeClientFromRoom. by rewrite decide_True. }
  split.
  - intros msg Hty. unfold Part000.handleWebSocket_dispatch, Part000.handleLeave.
    rewrite (decide_False (P := msg_Type msg = "join")) by done.
    assert (Hsig : Part000.handleSignaling client msg σ = σ).
    { apply Part000Frames.handleSignaling_noop. right; left. by rewrite Hrid. }
    rewrite Hsig, Hrem. by repeat destruct (decide _).
  - by rewrite Part000Frames.readError_removes.
Qed.

(** Session 3 has not joined while sessions 1 and 2 are in room R: its
    offer to "a" changes nothing. *)
Lemma X11_nothing_happens_before_the_first_join_witness :
  let σ := Scenarios.p_run Scenarios.two_in_R in
  Part000.handleWebSocket_dispatch 3 (Scenarios.offer_msg "a") σ = σ.
Proof.
  intros σ.
  assert (Hσ : Part000.reachable σ)
    by (apply Part000Frames.reachable_foldl; constructor).
  assert (Hrid : Part000.RoomID (Part000.client_at σ 3) = "")
    by (vm_compute; reflexivity).
  assert (Hty : msg_Type (Scenarios.offer_msg "a") ≠ "join")
    by (vm_compute; discriminate).
  destruct (X11_nothing_happens_before_the_first_join σ Hσ) as [_ H].
  destruct (H canonical_range 3 Hrid) as [H' _].
  exact (H' (Scenarios.offer_msg "a") Hty).
Defined.

(** ** The writer goroutine *)

Module PumpFacts.
Section Pump.
Context {frame conn : Type}.
Variable Marshal : Message → option frame.
Variable WriteMessage : conn → frame → conn * bool.

Lemma writePump_loop_prefix received : ∀ c,
  ∃ written,
    written `prefix_of` omap Marshal received ∧
    Part000.writePump_loop Marshal WriteMessage received c =
      foldl (λ c data, (WriteMessage c data).1) c written ∧
    ((∀ c data, (WriteMessage c data).2 = true) →
     written = omap Marshal received).
Proof.
  induction received as [|message rest IH]; intros c.
  - exists []. by repeat split.
  - simpl. destruct (Marshal message) as [data|] eqn:E.
    + destruct (WriteMessage c data) as [c' ok] eqn:W. destruct ok.
      * destruct (IH c') as (written & Hpre & Heq & Hall).
        exists (data :: written). split; [by apply prefix_cons|].
        split; [simpl; by rewrite W|]. intros Hok. by rewrite Hall.
      * exists [data]. split; [apply prefix_cons, prefix_nil|].
        split; [simpl; by rewrite W|]. intros Hok.
        specialize (Hok c data). rewrite W in Hok. discriminate Hok.
    + apply IH.
Qed.

End Pump.
End PumpFacts.

(** X12.  [writePump] writes to the connection the encodings of the
    messages of its queue in the order of the queue, each at most once:
    what it writes is a prefix of the encodable messages of the queue
    (a message the encoder rejects is skipped, the first failed write
    ends the loop), all of them when no write fails; and it closes the
    connection in every case. *)
Theorem X12_writer_keeps_the_order_of_the_queue :
  ∀ (frame conn : Type) (Marshal : Message → option frame)
    (WriteMessage : conn → frame → conn * bool) (Close : conn → conn)
    (received : list Message) (c : conn),
  ∃ written,
    written `prefix_of` omap Marshal received ∧
    Part000.writePump Marshal WriteMessage Close received c =
      Close (foldl (λ c data, (WriteMessage c data).1) c written) ∧
    ((∀ c data, (WriteMessage c data).2 = true) →
     written = omap Marshal received).
Proof.
  intros frame conn Marshal WriteMessage Close received c.
  destruct (PumpFacts.writePump_loop_prefix Marshal WriteMessage received c)
    as (written & Hpre & Heq & Hall).
  exists written. unfold Part000.writePump. by rewrite Heq.
Qed.

(** A connection that records what is written to it and never fails,
    with an encoder that rejects envelopes without a type: of a queue
    holding joined, an envelope without type and user-left, the first
    and the last are written, in this order. *)
Lemma X12_writer_keeps_the_order_of_the_queue_witness :
  Part000.writePump
    (λ m, if decide (msg_Type m = "") then None else Some (msg_Type m))
    (λ (c : list string) data, (c ++ [data], true)) (λ c, c)
    [joined_msg "R"; mkMessage "" "" "" "" "" []; user_left_msg "a" "R"] []
  = ["joined"; "user-left"].
Proof.
  destruct (X12_writer_keeps_the_order_of_the_queue string (list string)
              (λ m, if decide (msg_Type m = "") then None else Some (msg_Type m))
              (λ (c : list string) data, (c ++ [data], true)) (λ c, c)
              [joined_msg "R"; mkMessage "" "" "" "" "" []; user_left_msg "a" "R"]
              []) as (written & _ & -> & Hall).
  rewrite Hall by done. vm_compute. reflexivity.
Defined.





(** X15.  In main.go an envelope or the read error of a session changes
    the room maps under one key only, the session's id (after a join,
    the id the join carries): under every other key every room holds
    the session it held. *)
Theorem X15_main_go_entries_under_other_ids_untouched :
  (∀ (R : GoRange) client msg σ r k,
     let σ' := MainGo.handleWebSocket_dispatch client msg σ in
     k ≠ MainGo.ID (MainGo.client_at σ' client) →
     MainGo.Clients (MainGo.entered σ' r) !! k =
     MainGo.Clients (MainGo.entered σ r) !! k) ∧
  (∀ (R : GoRange) client σ r k,
     let σ' := MainGo.handleWebSocket_readError client σ in
     k ≠ MainGo.ID (MainGo.client_at σ' client) →
     MainGo.Clients (MainGo.entered σ' r) !! k =
     MainGo.Clients (MainGo.entered σ r) !! k).
Proof.
  assert (Hrem : ∀ (R : GoRange) client σ r k,
     k ≠ MainGo.ID (MainGo.client_at σ client) →
     MainGo.ID (MainGo.client_at (MainGo.removeClientFromRoom client σ) client)
       = MainGo.ID (MainGo.client_at σ client) ∧
     MainGo.Clients (MainGo.entered (MainGo.removeClientFromRoom client σ) r) !! k
       = MainGo.Clients (MainGo.entered σ r) !! k).
  { intros R client σ r k Hk.
    destruct (decide (MainGo.RoomID (MainGo.client_at σ client) = "")) as [E|E].
    { unfold MainGo.removeClientFromRoom. by rewrite decide_True. }
    destruct (MainGo.rooms σ !! MainGo.RoomID (MainGo.client_at σ client))
      as [room|] eqn:Hroom.
    - destruct (MainGoFacts.mg_removeClientFromRoom_spec client σ room E Hroom)
        as (Hrooms & Hfields & _).
      split; [by destruct (Hfields client) as (-> & _)|].
      unfold MainGo.entered. rewrite Hrooms.
      destruct (decide (r = MainGo.RoomID (MainGo.client_at σ client))) as [->|Hr].
      + rewrite Hroom. simpl. destruct (decide _) as [Hempty|_].
        * rewrite lookup_delete_eq. simpl. rewrite lookup_empty.
          rewrite <- (lookup_delete_ne (MainGo.Clients room)
                        (MainGo.ID (MainGo.client_at σ client)) k) by done.
          by rewrite Hempty, lookup_empty.
        * rewrite lookup_insert_eq. simpl. by rewrite lookup_delete_ne.
      + destruct (decide _).
        * by rewrite lookup_delete_ne.
        * by rewrite lookup_insert_ne.
    - unfold MainGo.removeClientFromRoom.
      by rewrite decide_False, Hroom. }
  split.
  - intros R client msg σ r k σ' Hk. subst σ'.
    unfold MainGo.handleWebSocket_dispatch, MainGo.handleLeave in *.
    assert (Hsig : MainGo.Clients
                     (MainGo.entered (MainGo.handleSignaling client msg σ) r) !! k
                   = MainGo.Clients (MainGo.entered σ r) !! k).
    { destruct (MainGoFrames.mg_handleSignaling_only_conns client msg σ)
        as [Hrooms _].
      unfold MainGo.entered. by rewrite Hrooms. }
    destruct (decide (msg_Type msg = "join")).
    + destruct (MainGoFacts.mg_handleJoin_spec client msg σ)
        as (Hrooms & Hfields & _).
      destruct (Hfields client) as (Hid & _).
      rewrite decide_True in Hid by done. rewrite Hid in Hk.
      unfold MainGo.entered at 1. rewrite Hrooms.
      destruct (decide (r = msg_RoomID msg)) as [->|Hr].
      * rewrite lookup_insert_eq. simpl. by rewrite lookup_insert_ne.
      * by rewrite lookup_insert_ne.
    + destruct (decide _); [done|]. destruct (decide _); [done|].
      destruct (decide _); [done|]. destruct (decide _); [|done].
      destruct (decide (k = MainGo.ID (MainGo.client_at σ client))) as [->|Hk'].
      * exfalso. apply Hk. symmetry.
        destruct (decide (MainGo.RoomID (MainGo.client_at σ client) = ""))
          as [E|E].
        { unfold MainGo.removeClientFromRoom. by rewrite decide_True. }
        destruct (MainGo.rooms σ !! MainGo.RoomID (MainGo.client_at σ client))
          as [room|] eqn:Hroom.
        -- destruct (MainGoFacts.mg_removeClientFromRoom_spec client σ room
                       E Hroom) as (_ & Hfields & _).
           by destruct (Hfields client) as (-> & _).
        -- unfold MainGo.removeClientFromRoom.
           by rewrite decide_False, Hroom.
      * by apply Hrem.
  - intros R client σ r k σ' Hk. subst σ'.
    rewrite MainGoFrames.mg_readError_removes in *.
    destruct (decide (k = MainGo.ID (MainGo.client_at σ client))) as [->|Hk'].
    + exfalso. apply Hk. symmetry.
      destruct (decide (MainGo.RoomID (MainGo.client_at σ client) = ""))
        as [E|E].
      { unfold MainGo.removeClientFromRoom. by rewrite decide_True. }
      destruct (MainGo.rooms σ !! MainGo.RoomID (MainGo.client_at σ client))
        as [room|] eqn:Hroom.
      * destruct (MainGoFacts.mg_removeClientFromRoom_spec client σ room
                    E Hroom) as (_ & Hfields & _).
        by destruct (Hfields client) as (-> & _).
      * unfold MainGo.removeClientFromRoom.
        by rewrite decide_False, Hroom.
    + by apply Hrem.
Qed.

(** Sessions 1 ("a") and 2 ("b") are in room R of main.go; a third
    session joins R as "c": the entry under "b" still holds session
    2. *)
Lemma X15_main_go_entries_under_other_ids_untouched_witness :
  let σ := Scenarios.m_run Scenarios.two_in_R in
  MainGo.Clients
    (MainGo.entered
       (MainGo.handleWebSocket_dispatch 3 (Scenarios.join_msg "c" "R" "carol") σ)
       "R") !! "b" = Some 2.
Proof.
  intros σ.
  assert (Hid : MainGo.ID (MainGo.client_at
                  (MainGo.handleWebSocket_dispatch 3
                     (Scenarios.join_msg "c" "R" "carol") σ) 3) = "c")
    by (vm_compute; reflexivity).
  assert (Hk : "b" ≠ MainGo.ID (MainGo.client_at
                  (MainGo.handleWebSocket_dispatch 3
                     (Scenarios.join_msg "c" "R" "carol") σ) 3))
    by (rewrite Hid; discriminate).
  rewrite (proj1 X15_main_go_entries_under_other_ids_untouched canonical_range 3
             (Scenarios.join_msg "c" "R" "carol") σ "R" "b" Hk).
  vm_compute. reflexivity.
Defined.

(** ** The registry of main.go over the life of a connection *)

Module MainGoLife.
Import MainGo MainGoFacts MainGoFrames.

Section Handlers.
Context {R : GoRange}.

Lemma mg_rooms_after_join c msg σ :
  rooms (handleJoin c msg σ) =
  <[msg_RoomID msg :=
      mkRoom (Room_ID (entered σ (msg_RoomID msg)))
             (<[msg_From msg := c]> (Clients (entered σ (msg_RoomID msg))))]>
    (rooms σ) ∧
  RoomID (client_at (handleJoin c msg σ) c) = msg_RoomID msg ∧
  ID (client_at (handleJoin c msg σ) c) = msg_From msg.
Proof.
  destruct (mg_handleJoin_spec c msg σ) as (Hrooms & Hid & _).
  split; [exact Hrooms|]. destruct (Hid c) as (-> & -> & _).
  by rewrite !decide_True.
Qed.

Lemma mg_removal_restores c r a σ0 s :
  rooms_nonempty σ0 → Clients (entered σ0 r) !! a = None → r ≠ "" →
  RoomID (client_at s c) = r → ID (client_at s c) = a →
  rooms s = rooms σ0 ∨
  rooms s = <[r := mkRoom (Room_ID (entered σ0 r))
                          (<[a := c]> (Clients (entered σ0 r)))]> (rooms σ0) →
  rooms (removeClientFromRoom c s) = rooms σ0.
Proof.
  intros Hne Hfree Hr Hrid Hid Hcase. rewrite <- Hrid in Hr.
  destruct Hcase as [Hs|Hs].
  - destruct (rooms σ0 !! r) as [room|] eqn:Hroom.
    + assert (Hroom' : rooms s !! RoomID (client_at s c) = Some room)
        by (by rewrite Hs, Hrid).
      destruct (mg_removeClientFromRoom_spec c s room Hr Hroom') as (-> & _).
      unfold entered in Hfree. rewrite Hroom in Hfree. simpl in Hfree.
      rewrite Hid, (delete_id _ _ Hfree).
      rewrite decide_False by (by apply (Hne r)).
      rewrite Hs, Hrid. apply insert_id. rewrite Hroom. by destruct room.
    + unfold removeClientFromRoom.
      rewrite decide_False by done. by rewrite Hs, Hrid, Hroom.
  - set (room1 := mkRoom (Room_ID (entered σ0 r))
                         (<[a := c]> (Clients (entered σ0 r)))) in *.
    assert (Hroom' : rooms s !! RoomID (client_at s c) = Some room1)
      by (by rewrite Hs, Hrid, lookup_insert_eq).
    destruct (mg_removeClientFromRoom_spec c s room1 Hr Hroom') as (-> & _).
    assert (E : delete (ID (client_at s c)) (Clients room1)
                = Clients (entered σ0 r)).
    { subst room1; simpl. rewrite Hid. by apply delete_insert_id. }
    rewrite E, Hs, Hrid. unfold entered in *.
    destruct (rooms σ0 !! r) as [room|] eqn:Hroom; simpl in *.
    + rewrite decide_False by (by apply (Hne r)).
      rewrite insert_insert_eq. apply insert_id. rewrite Hroom. by destruct room.
    + rewrite decide_True by done. by apply delete_insert_id.
Qed.

Lemma mg_join_again c msg r a σ0 s :
  msg_RoomID msg = r → msg_From msg = a →
  rooms s = rooms σ0 ∨
  rooms s = <[r := mkRoom (Room_ID (entered σ0 r))
                          (<[a := c]> (Clients (entered σ0 r)))]> (rooms σ0) →
  rooms (handleJoin c msg s) =
  <[r := mkRoom (Room_ID (entered σ0 r))
                (<[a := c]> (Clients (entered σ0 r)))]> (rooms σ0).
Proof.
  intros Hm Ha Hcase. subst r a.
  destruct (mg_rooms_after_join c msg s) as [-> _].
  destruct Hcase as [Hs|Hs].
  - unfold entered. by rewrite Hs.
  - unfold entered at 1 2. rewrite Hs, lookup_insert_eq. simpl.
    by rewrite !insert_insert_eq.
Qed.

End Handlers.
End MainGoLife.

(** X16.  A connection to main.go that only ever joins one room, under
    one id, leaves the registry as it found it.  Let a new session run
    its whole read loop, with any frames (undecodable ones included)
    whose joins all name the room [r], with a non-empty id, and carry
    the id [a], which is free in [r], up to the read error, while no
    other session acts: the registry afterwards is the registry
    before. *)
Theorem X16_main_go_one_room_connection_leaves_no_trace :
  ∀ (R : GoRange) client frames σ r a,
    MainGo.rooms_nonempty σ →
    MainGo.RoomID (MainGo.client_at σ client) = "" →
    r ≠ "" →
    MainGo.Clients (MainGo.entered σ r) !! a = None →
    Forall (λ frame, ∀ msg, frame = Some msg → msg_Type msg = "join" →
                            msg_RoomID msg = r ∧ msg_From msg = a) frames →
    MainGo.rooms (MainGo.handleWebSocket client frames σ) = MainGo.rooms σ.
Proof.
  intros R client frames σ0 r a Hne Hfresh Hr Hfree Hframes.
  unfold MainGo.handleWebSocket.
  set (J := <[r := MainGo.mkRoom (MainGo.Room_ID (MainGo.entered σ0 r))
                     (<[a := client]> (MainGo.Clients (MainGo.entered σ0 r)))]>
              (MainGo.rooms σ0)).
  set (Inv := λ s : MainGo.State,
        (MainGo.RoomID (MainGo.client_at s client) = "" ∧
         MainGo.rooms s = MainGo.rooms σ0) ∨
        (MainGo.RoomID (MainGo.client_at s client) = r ∧
         MainGo.ID (MainGo.client_at s client) = a ∧
         (MainGo.rooms s = MainGo.rooms σ0 ∨ MainGo.rooms s = J))).
  set (step := λ (s : MainGo.State) (frame : option Message),
        match frame with
        | None => s
        | Some msg => MainGo.handleWebSocket_dispatch client msg s
        end).
  assert (Hstep : ∀ s frame,
            (∀ msg, frame = Some msg → msg_Type msg = "join" →
                    msg_RoomID msg = r ∧ msg_From msg = a) →
            Inv s → Inv (step s frame)).
  { intros s [msg|] Hjoin Hinv; [|exact Hinv]. simpl.
    unfold MainGo.handleWebSocket_dispatch, MainGo.handleLeave.
    destruct (decide (msg_Type msg = "join")) as [Hty|_].
    - destruct (Hjoin msg eq_refl Hty) as [Hm Ha].
      destruct (MainGoLife.mg_rooms_after_join client msg s) as (_ & Hrid & Hid).
      right. split; [by rewrite Hrid|]. split; [by rewrite Hid|]. right.
      apply MainGoLife.mg_join_again; [done|done|].
      destruct Hinv as [[_ ?]|(_ & _ & ?)]; [by left|done].
    - assert (Hsig : Inv (MainGo.handleSignaling client msg s)).
      { destruct (MainGoFrames.mg_handleSignaling_only_conns client msg s)
          as [Hrooms Hfields].
        destruct (Hfields client) as (Hid & Hrid & _). unfold Inv.
        by rewrite Hrooms, Hrid, Hid. }
      destruct (decide _); [done|]. destruct (decide _); [done|].
      destruct (decide _); [done|]. destruct (decide _); [|done].
      destruct Hinv as [[Hempty Hrooms]|(Hjoined & Hid & Hcase)].
      + left. unfold MainGo.removeClientFromRoom. by rewrite decide_True.
      + assert (Hkeep : MainGo.RoomID (MainGo.client_at
                          (MainGo.removeClientFromRoom client s) client) = r ∧
                        MainGo.ID (MainGo.client_at
                          (MainGo.removeClientFromRoom client s) client) = a).
        { destruct (MainGo.rooms s !! MainGo.RoomID (MainGo.client_at s client))
            as [room|] eqn:Hroom.
          - assert (Hr' : MainGo.RoomID (MainGo.client_at s client) ≠ "")
              by (by rewrite Hjoined).
            destruct (MainGoFacts.mg_removeClientFromRoom_spec client s room
                        Hr' Hroom) as (_ & Hfields & _).
            destruct (Hfields client) as (-> & -> & _). by split.
          - unfold MainGo.removeClientFromRoom.
            rewrite decide_False by (by rewrite Hjoined). rewrite Hroom.
            by split. }
        right. split; [apply Hkeep|]. split; [apply Hkeep|]. left.
        by apply (MainGoLife.mg_removal_restores client r a σ0 s). }
  assert (Hfold : ∀ l s,
            Forall (λ frame, ∀ msg, frame = Some msg → msg_Type msg = "join" →
                             msg_RoomID msg = r ∧ msg_From msg = a) l →
            Inv s → Inv (foldl step s l)).
  { induction l as [|frame l IH]; intros s Hl Hinv; [done|].
    apply Forall_cons in Hl as [Hframe Hl]. simpl. apply IH; [done|].
    by apply Hstep. }
  assert (Hend : Inv (foldl step σ0 frames)).
  { apply Hfold; [done|]. left. by split. }
  rewrite MainGoFrames.mg_readError_removes.
  destruct Hend as [[Hempty Hrooms]|(Hjoined & Hid & Hcase)].
  - unfold MainGo.removeClientFromRoom. by rewrite decide_True.
  - by apply (MainGoLife.mg_removal_restores client r a σ0).
Qed.

(** Session 3 connects while sessions 1 ("a") and 2 ("b") are in room R,
    joins R as "c", sends a frame that is no JSON, an offer and a leave,
    joins R as "c" again and loses its connection: the registry is as
    it was. *)
Lemma X16_main_go_one_room_connection_leaves_no_trace_witness :
  let σ := Scenarios.m_run Scenarios.two_in_R in
  let frames := [Some (Scenarios.join_msg "c" "R" "carol"); None;
                 Some (Scenarios.offer_msg "a"); Some Scenarios.leave_msg;
                 Some (Scenarios.join_msg "c" "R" "carol")] in
  MainGo.rooms (MainGo.handleWebSocket 3 frames σ) = MainGo.rooms σ.
Proof.
  intros σ frames.
  apply (X16_main_go_one_room_connection_leaves_no_trace canonical_range 3
           frames σ "R" "c").
  - apply MainGoFrames.mg_reachable_nonempty, MainGoFrames.mg_reachable_foldl.
    constructor.
  - vm_compute. reflexivity.
  - discriminate.
  - vm_compute. reflexivity.
  - unfold frames.
    repeat (first [apply Forall_nil_2 | apply Forall_cons_2]);
      intros msg Heq Hty; try discriminate Heq; injection Heq as <-;
      first [ split; vm_compute; reflexivity
            | vm_compute in Hty; discriminate Hty ].
Defined.



(** X18.  [getOrCreateRoom] never replaces a room: a registered room is
    returned as it is and the store is left alone; otherwise an empty
    room named [roomID] is registered.  Either way the room it returns
    is the one registered under [roomID] afterwards, no other room and
    no session is touched, and a second call returns the same room and
    changes nothing. *)
Theorem X18_getOrCreateRoom_contract :
  ∀ roomID σ,
    let p := MainGo.getOrCreateRoom roomID σ in
    MainGo.rooms p.2 !! roomID = Some p.1 ∧
    MainGo.heap p.2 = MainGo.heap σ ∧
    (∀ r, r ≠ roomID → MainGo.rooms p.2 !! r = MainGo.rooms σ !! r) ∧
    (∀ old, MainGo.rooms σ !! roomID = Some old → p = (old, σ)) ∧
    (MainGo.rooms σ !! roomID = None → p.1 = MainGo.mkRoom roomID ∅) ∧
    MainGo.getOrCreateRoom roomID p.2 = p.
Proof.
  intros roomID σ p. subst p. unfold MainGo.getOrCreateRoom.
  destruct (MainGo.rooms σ !! roomID) as [room|] eqn:E; simpl.
  - rewrite E. repeat split; try done. by intros old [= <-].
  - rewrite lookup_insert_eq. repeat split; try done.
    intros r Hr. by rewrite lookup_insert_ne.
Qed.

(** Room R is registered with sessions 1 and 2: asking for it returns
    that room and leaves the store alone. *)
Lemma X18_getOrCreateRoom_contract_witness :
  let σ := Scenarios.m_run Scenarios.two_in_R in
  MainGo.getOrCreateRoom "R" σ = (MainGo.entered σ "R", σ).
Proof.
  intros σ.
  assert (E : MainGo.rooms σ !! "R" = Some (MainGo.entered σ "R"))
    by (vm_compute; reflexivity).
  destruct (X18_getOrCreateRoom_contract "R" σ) as (_ & _ & _ & H & _).
  exact (H _ E).
Defined.
